(** * Zarr v2 serving layer of Tiled: [tiled/server/zarr.py]

    A shallow embedding of the request handlers of [tiled/server/zarr.py]
    and the properties of the chunk-grid translation, the structure
    dispatch, the listing builder and the block fetch pipeline.

    Python integers are [Z]; Python strings are [string], each character
    standing for one code point below 256; exceptions are values of
    [exception] carried by the [Result] type; the calls a handler makes to
    the storage collaborators are recorded in a log that is threaded through
    the handler (the monad [M]). *)

From Stdlib Require Import ZArith List String Ascii Bool Lia Arith.
From Stdlib Require Import DecimalString DecimalPos.
From Stdlib.Strings Require Byte.
Import ListNotations.

Local Open Scope string_scope.
Local Open Scope Z_scope.

(** ** Exceptions and results *)

(** The exception classes the handlers raise, catch or let through. *)
Inductive exc_class : Type :=
| TypeError
| ValueError
| IndexError
| AttributeError
| OtherException (name : string).

(** A raised exception: a Python exception of some class with its first
    argument ([err.args[0]]), or FastAPI's [HTTPException]. *)
Inductive exception : Type :=
| PyExc (cls : exc_class) (args0 : string)
| HTTPException (status_code : Z) (detail : string).

Inductive Result (A : Type) : Type :=
| Ok (a : A)
| Raise (e : exception).

Arguments Ok {A} a.
Arguments Raise {A} e.

Definition HTTP_400_BAD_REQUEST : Z := 400.
Definition HTTP_404_NOT_FOUND : Z := 404.
Definition HTTP_500_INTERNAL_SERVER_ERROR : Z := 500.

Definition is_class (c : exc_class) (e : exception) : bool :=
  match e, c with
  | PyExc TypeError _, TypeError => true
  | PyExc ValueError _, ValueError => true
  | PyExc IndexError _, IndexError => true
  | PyExc AttributeError _, AttributeError => true
  | PyExc (OtherException n) _, OtherException m => String.eqb n m
  | _, _ => false
  end.

Definition is_http (e : exception) : bool :=
  match e with
  | HTTPException _ _ => true
  | PyExc _ _ => false
  end.

Module ResultMonad.

Definition bind {A B : Type} (r : Result A) (k : A -> Result B) : Result B :=
  match r with
  | Ok a => k a
  | Raise e => Raise e
  end.

(** A list comprehension whose body can raise: elements are evaluated
    left to right and the first exception ends the comprehension. *)
Fixpoint comprehension {A B : Type} (f : A -> Result B) (l : list A)
  : Result (list B) :=
  match l with
  | [] => Ok []
  | x :: l' =>
      bind (f x) (fun y =>
      bind (comprehension f l') (fun ys => Ok (y :: ys)))
  end.

End ResultMonad.

(** ** Module constants *)

Definition ZARR_BLOCK_SIZE : Z := 10000.
Definition ZARR_BYTE_ORDER : string := "C".
Definition ZARR_DATETIME64_PRECISION : string := "ns".

(** ** Chunk grid translation *)

(** The builtin [max] called with the positional arguments [args], all of
    them integers.  With a single positional argument [max] takes it for an
    iterable, and an integer is not one. *)
Definition py_max (args : list Z) : Result Z :=
  match args with
  | [] => Raise (PyExc TypeError "max expected at least 1 argument, got 0")
  | [_] => Raise (PyExc TypeError "'int' object is not iterable")
  | x :: rest => Ok (fold_left Z.max rest x)
  end.

(** [min(ZARR_BLOCK_SIZE, max( *tc, 1))] for one dimension. *)
Definition zarr_block_size (tc : list Z) : Result Z :=
  ResultMonad.bind (py_max (tc ++ [1])%list) (fun m => Ok (Z.min ZARR_BLOCK_SIZE m)).

Definition convert_chunks_for_zarr (tiled_chunks : list (list Z))
  : Result (list Z) :=
  ResultMonad.comprehension zarr_block_size tiled_chunks.

(** The greatest entry of a dimension: an entry that bounds the others. *)
Definition greatest (tc : list Z) (m : Z) : Prop :=
  In m tc /\ forall x, In x tc -> x <= m.

(** ** Python strings and integers in text *)

Definition code (c : ascii) : Z := Z.of_nat (nat_of_ascii c).

Definition between (lo hi : Z) (c : ascii) : bool :=
  (lo <=? code c) && (code c <=? hi).

(** [str(n)] for an integer. *)
Definition Z_to_string (z : Z) : string := NilZero.string_of_int (Z.to_int z).

(** [sep.join(l)]. *)
Fixpoint join (sep : string) (l : list string) : string :=
  match l with
  | [] => EmptyString
  | [x] => x
  | x :: l' => x ++ sep ++ join sep l'
  end.

(** [s.split(sep)] for a separator of one character: every occurrence
    splits, and the result always has at least one component. *)
Fixpoint split (sep : ascii) (s : string) : list string :=
  match s with
  | EmptyString => [EmptyString]
  | String c s' =>
      if Ascii.eqb c sep then EmptyString :: split sep s'
      else match split sep s' with
           | [] => [String c EmptyString]
           | w :: ws => String c w :: ws
           end
  end.

(** [s.rstrip(c)] for a single character [c]: every trailing [c] goes. *)
Fixpoint rstrip (c : ascii) (s : string) : string :=
  match s with
  | EmptyString => EmptyString
  | String a s' =>
      match rstrip c s' with
      | EmptyString => if Ascii.eqb a c then EmptyString else String a EmptyString
      | r => String a r
      end
  end.

(** The double quote, as a character and as a string of one character. *)
Definition dquote : ascii := ascii_of_nat 34.
Definition quoted : string := String dquote EmptyString.

(** The backslash, and a text with a backslash put before it. *)
Definition backslash : ascii := ascii_of_nat 92.
Definition esc (s : string) : string := String backslash s.

Definition hex_digit (n : Z) : ascii :=
  ascii_of_nat (Z.to_nat (if n <? 10 then 48 + n else 87 + n)).

Definition hex2 (c : ascii) : string :=
  String (hex_digit (code c / 16)) (String (hex_digit (code c mod 16)) EmptyString).

Fixpoint contains (c : ascii) (s : string) : bool :=
  match s with
  | EmptyString => false
  | String a s' => Ascii.eqb a c || contains c s'
  end.

Fixpoint concat_map (f : ascii -> string) (s : string) : string :=
  match s with
  | EmptyString => EmptyString
  | String a s' => f a ++ concat_map f s'
  end.

(** [repr(s)] of a string. *)
Definition py_repr_char (quote : ascii) (c : ascii) : string :=
  if Ascii.eqb c backslash then esc (esc EmptyString)
  else if Ascii.eqb c quote then esc (String c EmptyString)
  else if code c =? 9 then esc "t"
  else if code c =? 10 then esc "n"
  else if code c =? 13 then esc "r"
  else if (code c <? 32) || between 127 160 c || (code c =? 173)
       then esc "x" ++ hex2 c
  else String c EmptyString.

Definition py_repr_str (s : string) : string :=
  let quote : ascii :=
    if contains "'" s && negb (contains dquote s) then dquote else "'"%char in
  String quote (concat_map (py_repr_char quote) s ++ String quote EmptyString).

(** [repr] of a list and of a tuple of integers, as an f-string prints them. *)
Definition py_repr_list (l : list Z) : string :=
  "[" ++ join ", " (map Z_to_string l) ++ "]".

Definition py_repr_tuple (l : list Z) : string :=
  match l with
  | [x] => "(" ++ Z_to_string x ++ ",)"
  | _ => "(" ++ join ", " (map Z_to_string l) ++ ")"
  end.

(** *** [int(s)]

    The interpreter first maps the text to ASCII when it holds a character
    above 127 (white space becomes a blank, anything else that is no decimal
    digit becomes a question mark), then reads: optional white space, an
    optional sign, decimal digits with single underscores between them,
    optional white space.

    The interpreter can also refuse a literal for the number of its digits
    alone.  That limit belongs to the configuration of the interpreter: it
    is 4300 digits by default, it can be switched off or set to another
    value, which is never below 640, and older interpreters have none.  It
    is not modelled: [py_int] is [int] on the texts with at most 640
    digits, which every configuration reads, and on the texts [int]
    refuses for their form. *)

Definition py_isspace (c : ascii) : bool :=
  between 9 13 c || (code c =? 32).

Definition py_unicode_isspace (c : ascii) : bool :=
  py_isspace c || between 28 31 c || (code c =? 133) || (code c =? 160).

Definition is_digit (c : ascii) : bool := between 48 57 c.

Definition digit_value (c : ascii) : Z := code c - 48.

Fixpoint is_ascii_str (s : string) : bool :=
  match s with
  | EmptyString => true
  | String c s' => (code c <? 128) && is_ascii_str s'
  end.

Definition to_ascii_char (c : ascii) : string :=
  if code c <? 127 then String c EmptyString
  else if py_unicode_isspace c then " "
  else "?".

Definition transform_decimal_and_space (s : string) : string :=
  if is_ascii_str s then s else concat_map to_ascii_char s.

Fixpoint lstrip_space (s : string) : string :=
  match s with
  | EmptyString => EmptyString
  | String c s' => if py_isspace c then lstrip_space s' else s
  end.

(** The run of digits and underscores at the head of [s]: its value and the
    text after it, or [None] when two underscores meet or one ends the run. *)
Fixpoint scan_digits (s : string) (prev_underscore : bool) (acc : Z)
  : option (Z * string) :=
  match s with
  | EmptyString => if prev_underscore then None else Some (acc, EmptyString)
  | String c s' =>
      if is_digit c then scan_digits s' false (10 * acc + digit_value c)
      else if Ascii.eqb c "_" then
             if prev_underscore then None else scan_digits s' true acc
      else if prev_underscore then None else Some (acc, s)
  end.

(** The error of a text that is no integer literal; the message shows at
    most the first 200 characters of the [repr] of the text. *)
Definition invalid_literal (s : string) : exception :=
  PyExc ValueError ("invalid literal for int() with base 10: "
                    ++ substring 0 200 (py_repr_str s)).

Definition py_int (s : string) : Result Z :=
  let t := lstrip_space (transform_decimal_and_space s) in
  let '(sign, body) :=
    match t with
    | String "-" r => (-1, r)
    | String "+" r => (1, r)
    | _ => (1, t)
    end in
  match body with
  | String c _ =>
      if is_digit c then
        match scan_digits body false 0 with
        | Some (v, rest) =>
            match lstrip_space rest with
            | EmptyString => Ok (sign * v)
            | _ => Raise (invalid_literal s)
            end
        | None => Raise (invalid_literal s)
        end
      else Raise (invalid_literal s)
  | EmptyString => Raise (invalid_literal s)
  end.

(** ** JSON documents and [json.dumps] *)

#[local] Unset Elimination Schemes.
Inductive json : Type :=
| JNull
| JBool (b : bool)
| JInt (z : Z)
| JStr (s : string)
| JList (items : list json)
| JDict (items : list (string * json)).

#[local] Set Elimination Schemes.

(** The escaping of [json.dumps] with its default [ensure_ascii=True]. *)
Definition json_escape_char (c : ascii) : string :=
  if Ascii.eqb c dquote then esc quoted
  else if Ascii.eqb c backslash then esc (esc EmptyString)
  else if code c =? 10 then esc "n"
  else if code c =? 13 then esc "r"
  else if code c =? 9 then esc "t"
  else if code c =? 8 then esc "b"
  else if code c =? 12 then esc "f"
  else if between 32 126 c then String c EmptyString
  else esc "u00" ++ hex2 c.

Definition json_quote (s : string) : string :=
  quoted ++ concat_map json_escape_char s ++ quoted.

(** [json.dumps(j)] with the default separators [", "] and [": "]. *)
Fixpoint json_dumps (j : json) : string :=
  match j with
  | JNull => "null"
  | JBool true => "true"
  | JBool false => "false"
  | JInt z => Z_to_string z
  | JStr s => json_quote s
  | JList items => "[" ++ join ", " (map json_dumps items) ++ "]"
  | JDict items =>
      "{" ++ join ", "
               (map (fun kv => match kv with
                               | (k, v) => json_quote k ++ ": " ++ json_dumps v
                               end) items) ++ "}"
  end.

Definition ZARR_CODEC_SPEC : json :=
  JDict [("blocksize", JInt 0); ("clevel", JInt 5); ("cname", JStr "lz4");
         ("id", JStr "blosc"); ("shuffle", JInt 1)].

(** ** Arrays

    A numpy array is its shape and its elements laid out in row-major
    (C) order; the elements are integers, and the zero value of the data
    type is [0]. *)

Record ndarray : Type := mk_ndarray {
  nd_shape : list nat;
  nd_data : list Z
}.

(** The number of elements of a shape. *)
Definition size (sh : list nat) : nat := fold_right Nat.mul 1%nat sh.

Definition well_formed (a : ndarray) : Prop :=
  List.length (nd_data a) = size (nd_shape a).

(** The [n] consecutive runs of [k] elements of a buffer. *)
Fixpoint rows (n k : nat) (d : list Z) : list (list Z) :=
  match n with
  | O => []
  | S n' => firstn k d :: rows n' k (skipn k d)
  end.

(** The element at a multi-index, [0] when the buffer is too short. *)
Fixpoint nd_get (sh : list nat) (d : list Z) (idx : list nat) : Z :=
  match sh, idx with
  | _ :: sh', i :: idx' =>
      nd_get sh' (firstn (size sh') (skipn (i * size sh') d)) idx'
  | _, _ => hd 0 d
  end.

Definition getitem (a : ndarray) (idx : list nat) : Z :=
  nd_get (nd_shape a) (nd_data a) idx.

(** A multi-index lies inside a shape. *)
Fixpoint inside (sh idx : list nat) : bool :=
  match sh, idx with
  | n :: sh', i :: idx' => (i <? n)%nat && inside sh' idx'
  | [], [] => true
  | _, _ => false
  end.

(** *** [np.pad(array, [(0, p) ...], mode="constant")] *)

Definition padded_shape (sh ps : list nat) : list nat :=
  map (fun np => (fst np + snd np)%nat) (combine sh ps).

Fixpoint pad_data (sh ps : list nat) (d : list Z) : list Z :=
  match sh, ps with
  | n :: sh', p :: ps' =>
      (List.concat (map (pad_data sh' ps') (rows n (size sh') d))
       ++ repeat 0 (p * size (padded_shape sh' ps')))%list
  | _, _ => d
  end.

(** The pad widths are broadcast to one pair per axis: a single pair serves
    every axis (of which there may be none), an empty list of pairs is
    refused, and so is any other number of pairs than the number of axes. *)
Definition np_pad (a : ndarray) (after : list Z) : Result ndarray :=
  let ndim := List.length (nd_shape a) in
  let pad_with (w : list Z) :=
    let ps := map Z.to_nat w in
    Ok (mk_ndarray (padded_shape (nd_shape a) ps)
                   (pad_data (nd_shape a) ps (nd_data a))) in
  match after with
  | [] => Raise (PyExc ValueError "zero-size array to reduction operation minimum which has no identity")
  | [p] => pad_with (repeat p ndim)
  | _ =>
      if (List.length after =? ndim)%nat then pad_with after
      else Raise (PyExc ValueError "operands could not be broadcast together")
  end.

(** *** Slices and sparse arrays *)

(** [slice(start, stop)]. *)
Record slice : Type := mk_slice {
  start : Z;
  stop : Z
}.

(** A sparse array in coordinate form: the shape and the stored entries. *)
Record SparseArray : Type := mk_sparse {
  sp_shape : list nat;
  sp_coords : list (list nat * Z)
}.

(** The offset of a multi-index in the row-major buffer. *)
Fixpoint ravel (sh idx : list nat) : nat :=
  match sh, idx with
  | _ :: sh', i :: idx' => (i * size sh' + ravel sh' idx')%nat
  | _, _ => O
  end.

(** [array.todense()]: every position holds the sum of the entries stored
    for it. *)
Definition todense (s : SparseArray) : ndarray :=
  mk_ndarray (sp_shape s)
    (map (fun k =>
            fold_right Z.add 0
              (map snd (filter (fun e => (ravel (sp_shape s) (fst e) =? k)%nat)
                               (sp_coords s))))
         (seq 0 (size (sp_shape s)))).

(** What a read returns: a dense or a sparse array. *)
Inductive array_value : Type :=
| Dense (a : ndarray)
| Sparse (s : SparseArray).

(** *** A reader over an array held in memory

    The storage reader is a collaborator: the handlers only call
    [entry.read].  The reader below is the concrete one of the examples; it
    indexes a stored array with the slices the way numpy does, clipping
    every slice to the extent of its axis. *)

(** [slice.indices(n)] for a step of one: the first index and the count. *)
Definition slice_indices (sl : slice) (n : nat) : nat * nat :=
  let norm k := if k <? 0 then Z.max 0 (k + Z.of_nat n) else Z.min k (Z.of_nat n) in
  let lo := norm (start sl) in
  let hi := norm (stop sl) in
  (Z.to_nat lo, Z.to_nat (hi - lo)).

Definition sliced_shape (sh : list nat) (sls : list slice) : list nat :=
  (map (fun ns => snd (slice_indices (snd ns) (fst ns))) (combine sh sls)
   ++ skipn (List.length sls) sh)%list.

Fixpoint slice_data (sh : list nat) (sls : list slice) (d : list Z) : list Z :=
  match sh, sls with
  | n :: sh', sl :: sls' =>
      let '(lo, len) := slice_indices sl n in
      List.concat (map (slice_data sh' sls')
                  (firstn len (skipn lo (rows n (size sh') d))))
  | _, _ => d
  end.

(** Modelled from the spec: the storage reader
    [read(logicalSliceRanges) -> dense or sparse array value], which may
    fail with an out-of-range signal; the code of the readers is not part of
    this module. *)
Definition numpy_read (stored : ndarray) (sls : list slice) : Result array_value :=
  if (List.length (nd_shape stored) <? List.length sls)%nat
  then Raise (PyExc IndexError "too many indices for array")
  else Ok (Dense (mk_ndarray (sliced_shape (nd_shape stored) sls)
                             (slice_data (nd_shape stored) sls (nd_data stored)))).

(** Modelled from the spec: "the requested slice clipped to the logical
    shape" -- the number of indices of [[start, stop)] that lie in
    [[0, sh)]. *)
Definition clipped_extent (sl : slice) (sh : Z) : Z :=
  Z.max 0 (Z.min (stop sl) sh - Z.max 0 (start sl)).

(** ** Structure descriptions and entries *)

Module StructureFamily.
Inductive t : Type := array | awkward | container | sparse | table.

Definition eqb (a b : t) : bool :=
  match a, b with
  | array, array | awkward, awkward | container, container
  | sparse, sparse | table, table => true
  | _, _ => false
  end.

Definition mem (a : t) (l : list t) : bool := existsb (eqb a) l.
End StructureFamily.

Record Field : Type := mk_field { field_name : string }.

(** A data type is a builtin one, with the text [to_numpy_str()] gives for
    it, or a [StructDtype] with its fields. *)
Inductive DataType : Type :=
| BuiltinDtype (numpy_str : string)
| StructDtype (fields : list Field).

Definition isinstance_StructDtype (dt : DataType) : bool :=
  match dt with
  | StructDtype _ => true
  | BuiltinDtype _ => false
  end.

(** What [entry.structure()] returns: the description of an array (dense
    or sparse), of a table, or of a container.  Reading an attribute the
    description does not have raises [AttributeError]. *)
Inductive Structure : Type :=
| ArrayStructure (data_type : DataType) (chunks : list (list Z)) (shape : list Z)
| TableStructure (columns : list string)
| ContainerStructure.

Definition no_attribute {A : Type} (attr : string) : Result A :=
  Raise (PyExc AttributeError ("object has no attribute '" ++ attr ++ "'")).

Definition data_type (s : Structure) : Result DataType :=
  match s with
  | ArrayStructure dt _ _ => Ok dt
  | _ => no_attribute "data_type"
  end.

Definition chunks (s : Structure) : Result (list (list Z)) :=
  match s with
  | ArrayStructure _ cs _ => Ok cs
  | _ => no_attribute "chunks"
  end.

Definition shape (s : Structure) : Result (list Z) :=
  match s with
  | ArrayStructure _ _ sh => Ok sh
  | _ => no_attribute "shape"
  end.

Definition columns (s : Structure) : Result (list string) :=
  match s with
  | TableStructure cols => Ok cols
  | _ => no_attribute "columns"
  end.

(** [entry.metadata] is, depending on the version of the entry, a method
    that returns the metadata or a property that holds it. *)
Inductive MetadataAttr : Type :=
| MetadataMethod (returns : Result json)
| MetadataProperty (value : json).

(** The calls a handler makes to the storage collaborators. *)
Inductive Event : Type :=
| ReadCall (slices : list slice)
| KeysRangeCall (offset : Z) (limit : option Z)
| KeysCall.

Record Entry : Type := mk_entry {
  structure_family : StructureFamily.t;
  structure : Structure;
  metadata : MetadataAttr;
  keys_range : option (Z -> option Z -> Result (list string));
  keys : Result (list string);
  read : list slice -> Result array_value
}.

Record Request : Type := mk_request { url : string }.

Inductive Content : Type :=
| Text (s : string)
| Bytes (b : list Byte.byte).

Record Response : Type := mk_response {
  body : Content;
  status_code : Z;
  media_type : option string
}.

(** ** Handlers as computations

    A handler either returns a value or raises, and it records the calls it
    makes to the collaborators in the order it makes them. *)

Definition M (A : Type) : Type := list Event -> list Event * Result A.

Module HandlerMonad.

Definition ret {A : Type} (a : A) : M A := fun log => (log, Ok a).

Definition raise {A : Type} (e : exception) : M A := fun log => (log, Raise e).

Definition lift {A : Type} (r : Result A) : M A := fun log => (log, r).

Definition bind {A B : Type} (m : M A) (k : A -> M B) : M B :=
  fun log =>
    match m log with
    | (log', Ok a) => k a log'
    | (log', Raise e) => (log', Raise e)
    end.

(** A call to a collaborator: it is logged, then it returns or raises. *)
Definition call {A : Type} (ev : Event) (r : Result A) : M A :=
  fun log => ((log ++ [ev])%list, r).

(** [try: m except <class>: handler]. *)
Definition try_except {A : Type} (m : M A) (cls : exc_class) (handler : M A)
  : M A :=
  fun log =>
    match m log with
    | (log', Raise e) =>
        if is_class cls e then handler log' else (log', Raise e)
    | r => r
    end.

(** [try: m except Exception as err: handler err]. *)
Definition try_except_Exception {A : Type} (m : M A) (handler : exception -> M A)
  : M A :=
  fun log =>
    match m log with
    | (log', Raise e) => handler e log'
    | r => r
    end.

Definition run {A : Type} (m : M A) : list Event * Result A := m [].

End HandlerMonad.

Import HandlerMonad.

Declare Scope handler_scope.
Delimit Scope handler_scope with handler.
Notation "x <- m ;; k" := (bind m (fun x => k))
  (at level 61, m at next level, right associativity) : handler_scope.
Local Open Scope handler_scope.

(** Modelled from the spec: the status the web framework answers with,
    which is the status of the response the handler returned, the status of
    the [HTTPException] it raised, and internal server error for any other
    exception. *)
Definition http_status (r : Result Response) : Z :=
  match r with
  | Ok resp => status_code resp
  | Raise (HTTPException status _) => status
  | Raise (PyExc _ _) => HTTP_500_INTERNAL_SERVER_ERROR
  end.

(** Modelled from the spec: the [SecureEntry] dependency, which lives in
    [tiled/server/dependencies.py], outside this module.  As far as the
    handlers rely on it, an entry whose structure family is not among the
    ones the route names is the wrong endpoint and is answered with
    not-found before the handler runs; authentication and the lookup of the
    entry are left out. *)
Definition SecureEntry (structure_families : list StructureFamily.t)
  (entry : Entry) : M Entry :=
  if StructureFamily.mem (structure_family entry) structure_families
  then ret entry
  else raise (HTTPException HTTP_404_NOT_FOUND
                "The node has a structure family this endpoint is not compatible with").

(** [HTTPException(status_code=...)] without a detail: the detail is the
    phrase of the status. *)
Definition not_found {A : Type} : M A :=
  raise (HTTPException HTTP_404_NOT_FOUND "Not Found").

(** [entry.structure_family == StructureFamily.array and
     not isinstance(entry.structure().data_type, StructDtype)]:
    the right operand is evaluated only when the left one holds. *)
Definition is_unstructured_array (entry : Entry) : M bool :=
  if StructureFamily.eqb (structure_family entry) StructureFamily.array
  then dt <- lift (data_type (structure entry)) ;;
       ret (negb (isinstance_StructDtype dt))
  else ret false.

(** *** [/.zgroup] *)

Definition get_zarr_group_metadata (request : Request) (entry : Entry)
  : M Response :=
  unstructured <- is_unstructured_array entry ;;
  if unstructured : bool then not_found
  else ret (mk_response (Text (json_dumps (JDict [("zarr_format", JInt 2)])))
                        200 None).

(** *** [/.zarray] *)

Definition err_args0 (err : exception) : Result string :=
  match err with
  | PyExc _ msg => Ok msg
  | HTTPException _ _ => Raise (PyExc IndexError "tuple index out of range")
  end.

Definition get_zarr_array_metadata (request : Request) (entry : Entry)
  : M Response :=
  let structure := structure entry in
  dt <- lift (data_type structure) ;;
  match dt with
  | StructDtype _ => not_found
  | BuiltinDtype numpy_str =>
      try_except_Exception
        (cs <- lift (chunks structure) ;;
         zarr_chunks <- lift (convert_chunks_for_zarr cs) ;;
         sh <- lift (shape structure) ;;
         let zarray_spec :=
           JDict [("chunks", JList (map JInt zarr_chunks));
                  ("compressor", ZARR_CODEC_SPEC);
                  ("dtype", JStr numpy_str);
                  ("fill_value", JInt 0);
                  ("filters", JNull);
                  ("order", JStr ZARR_BYTE_ORDER);
                  ("shape", JList (map JInt sh));
                  ("zarr_format", JInt 2)] in
         ret (mk_response (Text (json_dumps zarray_spec)) 200 None))
        (fun err =>
           detail <- lift (err_args0 err) ;;
           raise (HTTPException HTTP_500_INTERNAL_SERVER_ERROR detail))
  end.

(** *** [/.zattrs] *)

(** The object bound to [metadata_dict]: a JSON value, or the bound method
    itself when calling it raised [TypeError]. *)
Inductive PyObject : Type :=
| JsonValue (j : json)
| BoundMethod.

Definition entry_metadata (entry : Entry) : M PyObject :=
  match metadata entry with
  | MetadataMethod returns =>
      try_except (j <- lift returns ;; ret (JsonValue j)) TypeError
                 (ret BoundMethod)
  | MetadataProperty value =>
      try_except (raise (PyExc TypeError "'dict' object is not callable"))
                 TypeError (ret (JsonValue value))
  end.

Definition json_dumps_object (o : PyObject) : Result string :=
  match o with
  | JsonValue j => Ok (json_dumps j)
  | BoundMethod =>
      Raise (PyExc TypeError "Object of type method is not JSON serializable")
  end.

Definition get_zarr_attrs (request : Request) (entry : Entry) : M Response :=
  unstructured <- is_unstructured_array entry ;;
  if unstructured : bool then not_found
  else
    metadata_dict <- entry_metadata entry ;;
    text <- lift (json_dumps_object metadata_dict) ;;
    ret (mk_response (Text text) 200 (Some "application/json")).

(** *** Listings and blocks: [/{path}] *)

(** What [zarr_codec.encode] returns: bytes, or an object of another type. *)
Inductive Encoded : Type :=
| EncodedBytes (b : list Byte.byte)
| EncodedOther.

(** [str(request.url).split("?")[0].rstrip("/")]. *)
Definition base_url (request : Request) : string :=
  rstrip "/" (hd EmptyString (split "?" (url request))).

(** [json.dumps([url + "/" + key for key in keys])] in a response. *)
Definition listing (url : string) (names : list string) : Response :=
  mk_response
    (Text (json_dumps (JList (map (fun key => JStr (url ++ "/" ++ key)) names))))
    200 (Some "application/json").

Definition block_slices_of (zarr_block_indx zarr_block_spec : list Z) : list slice :=
  map (fun ic => mk_slice (fst ic * snd ic) ((fst ic + 1) * snd ic))
      (combine zarr_block_indx zarr_block_spec).

Definition padding_size_of (block_slices : list slice) (sh : list Z) : list Z :=
  map (fun ss => Z.max 0 (stop (fst ss) - snd ss)) (combine block_slices sh).

Definition sum (l : list Z) : Z := fold_left Z.add l 0.

Definition list_Z_eqb (a b : list Z) : bool :=
  if list_eq_dec Z.eq_dec a b then true else false.

(** The two bad-request answers of the block pipeline. *)
Definition inconsistent_error (zarr_block_indx sh : list Z) : exception :=
  HTTPException HTTP_400_BAD_REQUEST
    ("Requested zarr block index " ++ py_repr_list zarr_block_indx
     ++ " is inconsistent with the shape of array, " ++ py_repr_tuple sh ++ ".").

Definition out_of_range_error (zarr_block_indx : list Z) : exception :=
  HTTPException HTTP_400_BAD_REQUEST
    ("Index of zarr block " ++ py_repr_list zarr_block_indx ++ " is out of range.").

(** [array.todense()] when the value read is a sparse array. *)
Definition densify (value : array_value) : ndarray :=
  match value with
  | Sparse s => todense s
  | Dense a => a
  end.

Section BlockPipeline.

(** The compression codec and the byte representation of one element of
    the data type are given from outside. *)
Variable zarr_codec_encode : ndarray -> Result Encoded.
Variable item_bytes : Z -> list Byte.byte.

(** [array.tobytes(order="A")] of an array in row-major order. *)
Definition tobytes (a : ndarray) : list Byte.byte :=
  flat_map item_bytes (nd_data a).

(** The part of the handler from the parsing of [block] to the padded
    dense array (the lines before the encoding). *)
Definition zarr_block (block : string) (entry : Entry) : M ndarray :=
  zarr_block_indx <- lift (ResultMonad.comprehension py_int (split "," block)) ;;
  cs <- lift (chunks (structure entry)) ;;
  zarr_block_spec <- lift (convert_chunks_for_zarr cs) ;;
  if negb (list_Z_eqb zarr_block_spec [] && list_Z_eqb zarr_block_indx [0])
     && negb (List.length zarr_block_spec =? List.length zarr_block_indx)%nat
  then
    sh <- lift (shape (structure entry)) ;;
    raise (inconsistent_error zarr_block_indx sh)
  else
    let block_slices := block_slices_of zarr_block_indx zarr_block_spec in
    value <- try_except
               (call (ReadCall block_slices) (read entry block_slices))
               IndexError
               (raise (out_of_range_error zarr_block_indx)) ;;
    let dense := densify value in
    sh <- lift (shape (structure entry)) ;;
    let padding_size := padding_size_of block_slices sh in
    if sum padding_size >? 0 then lift (np_pad dense padding_size)
    else ret dense.

(** The encoding of the block; [astype] with the array's own data type
    and the order it already has leaves it as it is. *)
Definition encode_block (a : ndarray) : M Response :=
  buf <- lift (zarr_codec_encode a) ;;
  let buf := match buf with
             | EncodedBytes b => b
             | EncodedOther => tobytes a
             end in
  ret (mk_response (Bytes buf) 200 None).

Definition get_zarr_array (request : Request) (block : option string)
  (entry : Entry) : M Response :=
  let url := base_url request in
  if StructureFamily.eqb (structure_family entry) StructureFamily.container
  then
    names <- match keys_range entry with
             | Some range => call (KeysRangeCall 0 None) (range 0 None)
             | None => call KeysCall (keys entry)
             end ;;
    ret (listing url names)
  else if StructureFamily.eqb (structure_family entry) StructureFamily.table
  then
    names <- lift (columns (structure entry)) ;;
    ret (listing url names)
  else
    struct_fields <-
      (if StructureFamily.eqb (structure_family entry) StructureFamily.array
       then dt <- lift (data_type (structure entry)) ;;
            ret (match dt with
                 | StructDtype fields => Some fields
                 | BuiltinDtype _ => None
                 end)
       else ret None) ;;
    match struct_fields with
    | Some fields => ret (listing url (map field_name fields))
    | None =>
        if StructureFamily.mem (structure_family entry)
             [StructureFamily.array; StructureFamily.sparse]
        then
          match block with
          | Some block => a <- zarr_block block entry ;; encode_block a
          | None => ret (mk_response (Text (json_dumps (JDict []))) 200 None)
          end
        else
          (* no branch is taken and the handler returns [None], which the
             framework serialises *)
          ret (mk_response (Text "null") 200 (Some "application/json"))
    end.

End BlockPipeline.

(** The routes: the dependency runs first, then the handler. *)
Definition route_zgroup (request : Request) (entry : Entry) : M Response :=
  e <- SecureEntry [StructureFamily.table; StructureFamily.container;
                    StructureFamily.array] entry ;;
  get_zarr_group_metadata request e.

Definition route_zarray (request : Request) (entry : Entry) : M Response :=
  e <- SecureEntry [StructureFamily.array; StructureFamily.sparse] entry ;;
  get_zarr_array_metadata request e.

Definition route_zattrs (request : Request) (entry : Entry) : M Response :=
  e <- SecureEntry [StructureFamily.table; StructureFamily.container;
                    StructureFamily.array] entry ;;
  get_zarr_attrs request e.

Definition route_data (zarr_codec_encode : ndarray -> Result Encoded)
  (item_bytes : Z -> list Byte.byte)
  (request : Request) (block : option string) (entry : Entry) : M Response :=
  e <- SecureEntry [StructureFamily.array; StructureFamily.sparse;
                    StructureFamily.table; StructureFamily.container] entry ;;
  get_zarr_array zarr_codec_encode item_bytes request block e.

(** ** Notions the statements use *)

(** The group marker [{"zarr_format": 2}] as text. *)
Definition group_marker : string :=
  "{" ++ quoted ++ "zarr_format" ++ quoted ++ ": 2}".

(** Every character of [s] is [c]. *)
Fixpoint only (c : ascii) (s : string) : bool :=
  match s with
  | EmptyString => true
  | String a s' => Ascii.eqb a c && only c s'
  end.

(** The last character of a text, if it has one. *)
Fixpoint last_char (s : string) : option ascii :=
  match s with
  | EmptyString => None
  | String a EmptyString => Some a
  | String _ s' => last_char s'
  end.

(** The URLs of a listing under the base [u], in the order of the names. *)
Definition child_urls (u : string) (names : list string) : list string :=
  map (fun name => u ++ "/" ++ name) names.

(** [lists entry names calls]: [entry] is listed, its children are named
    [names], in this order, and finding the names takes the calls [calls]:
    the keys of a container as [keys_range(offset=0, limit=None)] returns
    them, or as [keys()] does when the entry has no [keys_range]; the
    columns of a table; the fields of a structured array. *)
Inductive lists (entry : Entry) : list string -> list Event -> Prop :=
| lists_keys_range (range : Z -> option Z -> Result (list string)) names :
    structure_family entry = StructureFamily.container ->
    keys_range entry = Some range ->
    range 0 None = Ok names ->
    lists entry names [KeysRangeCall 0 None]
| lists_keys names :
    structure_family entry = StructureFamily.container ->
    keys_range entry = None ->
    keys entry = Ok names ->
    lists entry names [KeysCall]
| lists_columns names :
    structure_family entry = StructureFamily.table ->
    structure entry = TableStructure names ->
    lists entry names []
| lists_fields fields cs sh :
    structure_family entry = StructureFamily.array ->
    structure entry = ArrayStructure (StructDtype fields) cs sh ->
    lists entry (map field_name fields) [].

(** What the block pipeline does with the value a read returned: it makes
    it dense and pads it (the steps of [zarr_block] after the read). *)
Definition pad_block (block_slices : list slice) (sh : list Z)
  (value : array_value) : Result ndarray :=
  if sum (padding_size_of block_slices sh) >? 0
  then np_pad (densify value) (padding_size_of block_slices sh)
  else Ok (densify value).

(** The extents of the slices clipped to the logical shape, dimension by
    dimension. *)
Definition clipped_shape (block_slices : list slice) (sh : list Z) : list Z :=
  map (fun ss => clipped_extent (fst ss) (snd ss)) (combine block_slices sh).

(** [blocks_in_grid indx spec sh]: in every dimension the coordinate is
    not negative and the block it addresses, of the uniform grid of block
    sizes [spec], starts no further than the end of the dimension of the
    logical shape [sh]. *)
Inductive blocks_in_grid : list Z -> list Z -> list Z -> Prop :=
| blocks_in_grid_nil : blocks_in_grid [] [] []
| blocks_in_grid_cons i c s indx spec sh :
    0 <= i -> i * c <= s ->
    blocks_in_grid indx spec sh ->
    blocks_in_grid (i :: indx) (c :: spec) (s :: sh).

(** A coordinate addresses a block of the grid; a scalar, which has no
    dimension, is addressed by [[0]]. *)
Definition in_grid (indx spec sh : list Z) : Prop :=
  blocks_in_grid indx spec sh \/ (indx = [0] /\ spec = [] /\ sh = []).

(** ** Properties of handlers as computations *)

(** [emits P n m]: whatever was logged before, [m] leaves it in place and
    adds at most [n] calls to it, each of which satisfies [P]. *)
Definition emits {A : Type} (P : Event -> Prop) (n : nat) (m : M A) : Prop :=
  forall log,
  exists new,
    fst (m log) = (log ++ new)%list /\
    (List.length new <= n)%nat /\
    Forall P new.

(** [answers Q m]: every value [m] returns satisfies [Q]. *)
Definition answers {A : Type} (Q : A -> Prop) (m : M A) : Prop :=
  forall log log' a, m log = (log', Ok a) -> Q a.

(** An entry of the array family whose structure is that of an array with
    a builtin data type; entries of other families pass. *)
Definition builtin_if_array (entry : Entry) : Prop :=
  structure_family entry = StructureFamily.array ->
  exists numpy_str cs sh,
    structure entry = ArrayStructure (BuiltinDtype numpy_str) cs sh.

Definition is_read (ev : Event) : Prop := exists slices, ev = ReadCall slices.

Definition ok_status (resp : Response) : Prop := status_code resp = 200.

(** The number of elements of a block shape given as integers. *)
Definition product (l : list Z) : Z := fold_right Z.mul 1 l.

(** The array descriptor of [/.zarray] for a data type, a block shape and
    a logical shape. *)
Definition zarray_document (numpy_str : string) (zarr_chunks sh : list Z) : json :=
  JDict [("chunks", JList (map JInt zarr_chunks));
         ("compressor", ZARR_CODEC_SPEC);
         ("dtype", JStr numpy_str);
         ("fill_value", JInt 0);
         ("filters", JNull);
         ("order", JStr ZARR_BYTE_ORDER);
         ("shape", JList (map JInt sh));
         ("zarr_format", JInt 2)].

(** The integer that a run of decimal digits denotes when it is read after
    the digits of [acc]. *)
Fixpoint uint_value (d : Decimal.uint) (acc : Z) : Z :=
  match d with
  | Decimal.Nil => acc
  | Decimal.D0 l => uint_value l (10 * acc + 0)
  | Decimal.D1 l => uint_value l (10 * acc + 1)
  | Decimal.D2 l => uint_value l (10 * acc + 2)
  | Decimal.D3 l => uint_value l (10 * acc + 3)
  | Decimal.D4 l => uint_value l (10 * acc + 4)
  | Decimal.D5 l => uint_value l (10 * acc + 5)
  | Decimal.D6 l => uint_value l (10 * acc + 6)
  | Decimal.D7 l => uint_value l (10 * acc + 7)
  | Decimal.D8 l => uint_value l (10 * acc + 8)
  | Decimal.D9 l => uint_value l (10 * acc + 9)
  end.

(** ** Entries and collaborators used in the examples *)

Module Examples.

(** An entry over an array held in memory, read with [numpy_read]. *)
Definition array_entry (dt : DataType) (cs : list (list Z)) (stored : ndarray)
  : Entry :=
  mk_entry StructureFamily.array
           (ArrayStructure dt cs (map Z.of_nat (nd_shape stored)))
           (MetadataMethod (Ok (JDict [])))
           None
           (Raise (PyExc AttributeError "object has no attribute 'keys'"))
           (numpy_read stored).

Definition int64 : DataType := BuiltinDtype "<i8".

Definition record_dtype : DataType :=
  StructDtype [mk_field "x"; mk_field "y"].

(** 25 stored elements [1 .. 25] in one dimension. *)
Definition stored25 : ndarray :=
  mk_ndarray [25%nat] (map Z.of_nat (seq 1 25)).

Definition entry25 : Entry := array_entry int64 [[10; 10; 5]] stored25.

(** A dimension of length zero, with the one chunk of length zero. *)
Definition entry_empty : Entry :=
  array_entry int64 [[0]] (mk_ndarray [0%nat] []).

(** A dimension without chunk entries. *)
Definition entry_no_chunks : Entry :=
  array_entry int64 [[]] (mk_ndarray [0%nat] []).

(** A scalar: no dimension at all, one element. *)
Definition entry_scalar : Entry :=
  array_entry int64 [] (mk_ndarray [] [7]).

Definition entry_records : Entry :=
  array_entry record_dtype [[2]] (mk_ndarray [2%nat] [0; 0]).

Definition container_entry (names : list string) : Entry :=
  mk_entry StructureFamily.container ContainerStructure
           (MetadataProperty (JDict [("title", JStr "run")]))
           (Some (fun _ _ => Ok names))
           (Ok names)
           (fun _ => Raise (PyExc AttributeError "object has no attribute 'read'")).

(** A container whose [metadata()] returns [None]. *)
Definition entry_without_metadata : Entry :=
  mk_entry StructureFamily.container ContainerStructure
           (MetadataMethod (Ok JNull))
           (Some (fun _ _ => Ok []))
           (Ok [])
           (fun _ => Raise (PyExc AttributeError "object has no attribute 'read'")).

Definition table_entry (cols : list string) : Entry :=
  mk_entry StructureFamily.table (TableStructure cols)
           (MetadataMethod (Ok (JDict [])))
           None
           (Raise (PyExc AttributeError "object has no attribute 'keys'"))
           (fun _ => Raise (PyExc AttributeError "object has no attribute 'read'")).

(** A codec that always answers with bytes, and one byte per element. *)
Definition one_byte (z : Z) : list Byte.byte :=
  match Byte.of_nat (Z.to_nat (z mod 256)) with
  | Some b => [b]
  | None => []
  end.

Definition raw_codec (a : ndarray) : Result Encoded :=
  Ok (EncodedBytes (flat_map one_byte (nd_data a))).

(** An array entry whose read raises. *)
Definition failing_entry (e : exception) : Entry :=
  mk_entry StructureFamily.array
           (ArrayStructure int64 [[10; 10; 5]] [25])
           (MetadataMethod (Ok (JDict [])))
           None
           (Raise (PyExc AttributeError "object has no attribute 'keys'"))
           (fun _ => Raise e).




Definition request (u : string) : Request := mk_request u.

End Examples.

(** *** Properties of the translation *)

Section ChunkGrid.

Lemma fold_left_max_ge (l : list Z) (a : Z) : a <= fold_left Z.max l a.
Proof.
  revert a; induction l as [|x l IH]; intros a; simpl; [lia|].
  specialize (IH (Z.max a x)); lia.
Qed.

Lemma fold_left_max_upper (l : list Z) (a : Z) :
  forall x, In x l -> x <= fold_left Z.max l a.
Proof.
  revert a; induction l as [|y l IH]; intros a x Hin; simpl in *; [tauto|].
  destruct Hin as [->|Hin].
  - pose proof (fold_left_max_ge l (Z.max a x)); lia.
  - now apply IH.
Qed.

Lemma fold_left_max_attained (l : list Z) (a : Z) :
  fold_left Z.max l a = a \/ In (fold_left Z.max l a) l.
Proof.
  revert a; induction l as [|y l IH]; intros a; simpl; [now left|].
  destruct (IH (Z.max a y)) as [H|H]; [|now right; right].
  rewrite H. destruct (Z.max_spec a y) as [[_ ->]|[_ ->]]; auto.
Qed.

Lemma fold_left_max_app1 (l : list Z) (a : Z) :
  fold_left Z.max (l ++ [1])%list a = Z.max (fold_left Z.max l a) 1.
Proof. now rewrite fold_left_app. Qed.

Lemma greatest_unique tc m m' : greatest tc m -> greatest tc m' -> m = m'.
Proof.
  intros [Hm Hb] [Hm' Hb']. specialize (Hb _ Hm'). specialize (Hb' _ Hm). lia.
Qed.

Lemma greatest_fold (x : Z) (tc : list Z) :
  greatest (x :: tc) (fold_left Z.max tc x).
Proof.
  split.
  - destruct (fold_left_max_attained tc x) as [->|H]; simpl; auto.
  - intros y [<-|Hy]; [apply fold_left_max_ge|now apply fold_left_max_upper].
Qed.

Lemma zarr_block_size_nonempty (x : Z) (tc : list Z) :
  zarr_block_size (x :: tc)
  = Ok (Z.min ZARR_BLOCK_SIZE (Z.max (fold_left Z.max tc x) 1)).
Proof.
  unfold zarr_block_size.
  destruct tc as [|y tc]; [reflexivity|].
  change (py_max ((x :: y :: tc) ++ [1])%list)
    with (Ok (fold_left Z.max ((y :: tc) ++ [1])%list x)).
  now rewrite fold_left_max_app1.
Qed.

Lemma zarr_block_size_empty :
  zarr_block_size [] = Raise (PyExc TypeError "'int' object is not iterable").
Proof. reflexivity. Qed.

Lemma zarr_block_size_spec (tc : list Z) (c : Z) :
  zarr_block_size tc = Ok c ->
  exists m, greatest tc m /\ c = Z.min ZARR_BLOCK_SIZE (Z.max m 1).
Proof.
  destruct tc as [|x tc]; [discriminate|].
  rewrite zarr_block_size_nonempty. intros [= <-].
  eexists; split; [apply greatest_fold|reflexivity].
Qed.

Lemma zarr_block_size_range (tc : list Z) (c : Z) :
  zarr_block_size tc = Ok c -> 1 <= c <= ZARR_BLOCK_SIZE.
Proof.
  intros H. apply zarr_block_size_spec in H as (m & _ & ->).
  unfold ZARR_BLOCK_SIZE. lia.
Qed.

Lemma convert_cons (tc : list Z) (chunks : list (list Z)) :
  convert_chunks_for_zarr (tc :: chunks)
  = ResultMonad.bind (zarr_block_size tc) (fun c =>
    ResultMonad.bind (convert_chunks_for_zarr chunks) (fun cs => Ok (c :: cs))).
Proof. reflexivity. Qed.

Lemma convert_total (chunks : list (list Z)) :
  Forall (fun tc => tc <> []) chunks ->
  exists bs, convert_chunks_for_zarr chunks = Ok bs.
Proof.
  induction 1 as [|tc chunks Htc _ [bs IH]]; [now exists []|].
  destruct tc as [|x tc]; [congruence|].
  rewrite convert_cons, zarr_block_size_nonempty, IH. cbn. eauto.
Qed.

Lemma convert_pointwise (chunks : list (list Z)) (bs : list Z) :
  convert_chunks_for_zarr chunks = Ok bs ->
  Forall2 (fun tc c => zarr_block_size tc = Ok c) chunks bs.
Proof.
  revert bs; induction chunks as [|tc chunks IH]; intros bs.
  - intros [= <-]. constructor.
  - rewrite convert_cons.
    destruct (zarr_block_size tc) as [c|e] eqn:Hc; [|discriminate].
    cbn. destruct (convert_chunks_for_zarr chunks) as [cs|e]; [|discriminate].
    cbn. intros [= <-]. constructor; auto.
Qed.

Lemma convert_length (chunks : list (list Z)) (bs : list Z) :
  convert_chunks_for_zarr chunks = Ok bs -> List.length bs = List.length chunks.
Proof.
  intros H. apply convert_pointwise in H.
  symmetry. eapply Forall2_length; eauto.
Qed.

End ChunkGrid.

(** C2: on a chunk spec with at least one entry in every dimension the
    translation returns a value (it does not raise), the value of dimension
    [i] is [min(ZARR_BLOCK_SIZE, max(m, 1))] for the greatest entry [m] of
    that dimension, and it lies between 1 and [ZARR_BLOCK_SIZE]. *)
Theorem convert_chunks_for_zarr_total_and_bounded (chunks : list (list Z)) :
  Forall (fun tc => tc <> []) chunks ->
  exists bs,
    convert_chunks_for_zarr chunks = Ok bs /\
    Forall2 (fun tc c =>
               (exists m, greatest tc m /\ c = Z.min ZARR_BLOCK_SIZE (Z.max m 1))
               /\ 1 <= c <= ZARR_BLOCK_SIZE) chunks bs.
Proof.
  intros Hne. destruct (convert_total _ Hne) as [bs Hbs].
  exists bs; split; [exact Hbs|].
  apply convert_pointwise in Hbs.
  induction Hbs as [|tc c chunks bs Hc _ IH]; constructor.
  - split; [exact (zarr_block_size_spec _ _ Hc)|exact (zarr_block_size_range _ _ Hc)].
  - apply IH. now inversion Hne.
Qed.

Lemma convert_chunks_for_zarr_total_and_bounded_witness :
  exists bs,
    convert_chunks_for_zarr [[10; 10; 5]; [20000; 7]; [0]] = Ok bs /\
    Forall2 (fun tc c =>
               (exists m, greatest tc m /\ c = Z.min ZARR_BLOCK_SIZE (Z.max m 1))
               /\ 1 <= c <= ZARR_BLOCK_SIZE) [[10; 10; 5]; [20000; 7]; [0]] bs.
Proof.
  apply (convert_chunks_for_zarr_total_and_bounded [[10; 10; 5]; [20000; 7]; [0]]).
  repeat constructor; discriminate.
Defined.
(** ** The metadata endpoints *)

Section Metadata.

Variable request : Request.

Lemma group_marker_dumps :
  json_dumps (JDict [("zarr_format", JInt 2)]) = group_marker.
Proof. reflexivity. Qed.

Lemma secure_entry_passes (families : list StructureFamily.t) (entry : Entry) :
  StructureFamily.mem (structure_family entry) families = true ->
  forall log, SecureEntry families entry log = (log, Ok entry).
Proof. intros H log. unfold SecureEntry. now rewrite H. Qed.

Lemma unstructured_array_of (entry : Entry) dt cs sh :
  structure_family entry = StructureFamily.array ->
  structure entry = ArrayStructure dt cs sh ->
  forall log,
    is_unstructured_array entry log = (log, Ok (negb (isinstance_StructDtype dt))).
Proof.
  intros Hf Hs log. unfold is_unstructured_array. now rewrite Hf, Hs.
Qed.

Lemma unstructured_other_family (entry : Entry) :
  structure_family entry <> StructureFamily.array ->
  forall log, is_unstructured_array entry log = (log, Ok false).
Proof.
  intros Hf log. unfold is_unstructured_array.
  destruct (structure_family entry); try reflexivity. congruence.
Qed.

Lemma zgroup_of_array (entry : Entry) dt cs sh :
  structure_family entry = StructureFamily.array ->
  structure entry = ArrayStructure dt cs sh ->
  run (get_zarr_group_metadata request entry)
  = if isinstance_StructDtype dt
    then ([], Ok (mk_response (Text group_marker) 200 None))
    else ([], Raise (HTTPException HTTP_404_NOT_FOUND "Not Found")).
Proof.
  intros Hf Hs. unfold run, get_zarr_group_metadata, bind.
  rewrite (unstructured_array_of entry dt cs sh Hf Hs).
  destruct dt; reflexivity.
Qed.

Lemma zarray_of_struct (entry : Entry) fields cs sh :
  structure entry = ArrayStructure (StructDtype fields) cs sh ->
  run (get_zarr_array_metadata request entry)
  = ([], Raise (HTTPException HTTP_404_NOT_FOUND "Not Found")).
Proof.
  intros Hs. unfold run, get_zarr_array_metadata, bind, lift.
  now rewrite Hs.
Qed.

Lemma route_of_array (entry : Entry) (families : list StructureFamily.t)
  (handler : Request -> Entry -> M Response) :
  StructureFamily.mem (structure_family entry) families = true ->
  run (e <- SecureEntry families entry ;; handler request e)
  = run (handler request entry).
Proof.
  intros H. unfold run, bind. now rewrite secure_entry_passes.
Qed.

Lemma entry_metadata_passes (entry : Entry) (j : json) :
  metadata entry = MetadataMethod (Ok j) \/ metadata entry = MetadataProperty j ->
  forall log, entry_metadata entry log = (log, Ok (JsonValue j)).
Proof.
  intros [H|H] log; unfold entry_metadata; rewrite H; reflexivity.
Qed.

Lemma zattrs_passes (entry : Entry) (j : json) :
  (forall log, is_unstructured_array entry log = (log, Ok false)) ->
  metadata entry = MetadataMethod (Ok j) \/ metadata entry = MetadataProperty j ->
  run (get_zarr_attrs request entry)
  = ([], Ok (mk_response (Text (json_dumps j)) 200 (Some "application/json"))).
Proof.
  intros Hu Hm. unfold run, get_zarr_attrs, bind.
  rewrite Hu, (entry_metadata_passes entry j Hm). reflexivity.
Qed.

End Metadata.

(** C7: for an Array entry with a structured data type the group-marker
    request returns exactly [{"zarr_format": 2}] with status 200 and the
    array-descriptor request raises not-found; for an Array entry with a
    primitive data type the group-marker request raises not-found.  This
    holds of the handlers and of the routes behind the entry dependency. *)
Theorem structured_array_answers_as_group
  (request : Request) (entry : Entry) dt cs sh :
  structure_family entry = StructureFamily.array ->
  structure entry = ArrayStructure dt cs sh ->
  (isinstance_StructDtype dt = true ->
     run (get_zarr_group_metadata request entry)
       = ([], Ok (mk_response (Text group_marker) 200 None)) /\
     run (route_zgroup request entry)
       = ([], Ok (mk_response (Text group_marker) 200 None)) /\
     run (get_zarr_array_metadata request entry)
       = ([], Raise (HTTPException HTTP_404_NOT_FOUND "Not Found")) /\
     http_status (snd (run (route_zarray request entry))) = HTTP_404_NOT_FOUND) /\
  (isinstance_StructDtype dt = false ->
     run (get_zarr_group_metadata request entry)
       = ([], Raise (HTTPException HTTP_404_NOT_FOUND "Not Found")) /\
     http_status (snd (run (route_zgroup request entry))) = HTTP_404_NOT_FOUND).
Proof.
  intros Hf Hs.
  assert (Hg : StructureFamily.mem (structure_family entry)
                 [StructureFamily.table; StructureFamily.container;
                  StructureFamily.array] = true) by now rewrite Hf.
  assert (Ha : StructureFamily.mem (structure_family entry)
                 [StructureFamily.array; StructureFamily.sparse] = true)
    by now rewrite Hf.
  pose proof (zgroup_of_array request entry dt cs sh Hf Hs) as Hz.
  split; intros Hdt; rewrite Hdt in Hz.
  - destruct dt as [|fields]; [discriminate|].
    unfold route_zgroup, route_zarray.
    rewrite (route_of_array request entry _ get_zarr_group_metadata Hg).
    rewrite (route_of_array request entry _ get_zarr_array_metadata Ha).
    rewrite (zarray_of_struct request entry fields cs sh Hs).
    repeat split; auto.
  - unfold route_zgroup.
    rewrite (route_of_array request entry _ get_zarr_group_metadata Hg).
    rewrite Hz. split; reflexivity.
Qed.

Lemma structured_array_answers_as_group_witness :
  run (get_zarr_group_metadata (Examples.request "http://h/r/.zgroup")
         Examples.entry_records)
    = ([], Ok (mk_response (Text group_marker) 200 None)) /\
  run (get_zarr_array_metadata (Examples.request "http://h/r/.zgroup")
         Examples.entry_records)
    = ([], Raise (HTTPException HTTP_404_NOT_FOUND "Not Found")) /\
  run (get_zarr_group_metadata (Examples.request "http://h/r/.zgroup")
         Examples.entry25)
    = ([], Raise (HTTPException HTTP_404_NOT_FOUND "Not Found")).
Proof.
  destruct (structured_array_answers_as_group
              (Examples.request "http://h/r/.zgroup") Examples.entry_records
              Examples.record_dtype [[2]] [2] eq_refl eq_refl) as [Hs _].
  destruct (structured_array_answers_as_group
              (Examples.request "http://h/r/.zgroup") Examples.entry25
              Examples.int64 [[10; 10; 5]] [25] eq_refl eq_refl) as [_ Hp].
  destruct (Hs eq_refl) as (H1 & _ & H2 & _).
  destruct (Hp eq_refl) as (H3 & _).
  exact (conj H1 (conj H2 H3)).
Defined.

(** X18: an entry that answers the attributes request (any entry that is
    not an Array with a primitive data type) gets the value of its metadata
    back as it is, serialised by [json.dumps], whether [metadata] is a
    method or a property; an Array entry with a primitive data type gets
    not-found. *)
Theorem attrs_pass_metadata_through (request : Request) (entry : Entry) :
  (forall j,
     (structure_family entry <> StructureFamily.array \/
      exists fields cs sh,
        structure entry = ArrayStructure (StructDtype fields) cs sh) ->
     (metadata entry = MetadataMethod (Ok j) \/ metadata entry = MetadataProperty j) ->
     run (get_zarr_attrs request entry)
       = ([], Ok (mk_response (Text (json_dumps j)) 200 (Some "application/json")))) /\
  (forall numpy_str cs sh,
     structure_family entry = StructureFamily.array ->
     structure entry = ArrayStructure (BuiltinDtype numpy_str) cs sh ->
     run (get_zarr_attrs request entry)
       = ([], Raise (HTTPException HTTP_404_NOT_FOUND "Not Found")) /\
     http_status (snd (run (route_zattrs request entry))) = HTTP_404_NOT_FOUND).
Proof.
  split.
  - intros j Hkind Hm.
    apply (zattrs_passes request entry j); [|exact Hm].
    destruct Hkind as [Hf|(fields & cs & sh & Hs)].
    + now apply unstructured_other_family.
    + intros log. unfold is_unstructured_array.
      destruct (StructureFamily.eqb _ _); [|reflexivity].
      now rewrite Hs.
  - intros numpy_str cs sh Hf Hs.
    assert (H : run (get_zarr_attrs request entry)
                = ([], Raise (HTTPException HTTP_404_NOT_FOUND "Not Found"))).
    { unfold run, get_zarr_attrs, bind.
      now rewrite (unstructured_array_of entry _ cs sh Hf Hs). }
    split; [exact H|].
    unfold route_zattrs.
    rewrite (route_of_array request entry _ get_zarr_attrs)
      by now rewrite Hf.
    now rewrite H.
Qed.

Lemma attrs_pass_metadata_through_witness :
  run (get_zarr_attrs (Examples.request "http://h/c/.zattrs")
         (Examples.container_entry []))
    = ([], Ok (mk_response
                 (Text (json_dumps (JDict [("title", JStr "run")])))
                 200 (Some "application/json"))) /\
  run (get_zarr_attrs (Examples.request "http://h/t/.zattrs")
         (Examples.table_entry ["a"]))
    = ([], Ok (mk_response (Text "{}") 200 (Some "application/json"))) /\
  run (get_zarr_attrs (Examples.request "http://h/a/.zattrs") Examples.entry25)
    = ([], Raise (HTTPException HTTP_404_NOT_FOUND "Not Found")).
Proof.
  destruct (attrs_pass_metadata_through
              (Examples.request "http://h/c/.zattrs")
              (Examples.container_entry [])) as [Hc _].
  destruct (attrs_pass_metadata_through
              (Examples.request "http://h/t/.zattrs")
              (Examples.table_entry ["a"])) as [Ht _].
  destruct (attrs_pass_metadata_through
              (Examples.request "http://h/a/.zattrs") Examples.entry25)
    as [_ Ha].
  split; [|split].
  - apply (Hc (JDict [("title", JStr "run")])).
    + left; discriminate.
    + right; reflexivity.
  - apply (Ht (JDict [])); [left; discriminate|left; reflexivity].
  - apply (Ha "<i8" [[10; 10; 5]] [25]); reflexivity.
Defined.

(** C8 (what the handler does for an entry without metadata): the
    handler passes the metadata through and has no fallback of its own, so
    for an entry whose metadata is [None], returned by the method or held
    by the property, the body is the text [null] and not the empty mapping
    [{}] that the docstring of the handler promises ("Otherwise, return an
    empty dict"). *)
Theorem attrs_without_metadata_answers_null (request : Request) (entry : Entry) :
  (structure_family entry <> StructureFamily.array \/
   exists fields cs sh,
     structure entry = ArrayStructure (StructDtype fields) cs sh) ->
  (metadata entry = MetadataMethod (Ok JNull) \/
   metadata entry = MetadataProperty JNull) ->
  run (get_zarr_attrs request entry)
    = ([], Ok (mk_response (Text "null") 200 (Some "application/json"))) /\
  body (mk_response (Text "null") 200 (Some "application/json"))
    <> Text (json_dumps (JDict [])).
Proof.
  intros Hkind Hm. split; [|discriminate].
  apply (zattrs_passes request entry JNull); [|exact Hm].
  destruct Hkind as [Hf|(fields & cs & sh & Hs)].
  - now apply unstructured_other_family.
  - intros log. unfold is_unstructured_array.
    destruct (StructureFamily.eqb _ _); [|reflexivity].
    now rewrite Hs.
Qed.

Lemma attrs_without_metadata_answers_null_witness :
  run (get_zarr_attrs (Examples.request "http://h/c/.zattrs")
         (Examples.entry_without_metadata))
    = ([], Ok (mk_response (Text "null") 200 (Some "application/json"))) /\
  body (mk_response (Text "null") 200 (Some "application/json"))
    <> Text (json_dumps (JDict [])).
Proof.
  apply (attrs_without_metadata_answers_null
           (Examples.request "http://h/c/.zattrs")
           Examples.entry_without_metadata).
  - left; discriminate.
  - left; reflexivity.
Defined.

(** ** The listing builder *)

Section Urls.

Lemma split_nonempty (sep : ascii) (s : string) : split sep s <> [].
Proof.
  destruct s as [|c s]; simpl; [discriminate|].
  destruct (Ascii.eqb c sep); [discriminate|].
  destruct (split sep s); discriminate.
Qed.

(** The first component of a split is the text before the first
    separator. *)
Lemma split_head (sep : ascii) (s : string) :
  exists rest,
    s = hd EmptyString (split sep s) ++ rest /\
    (rest = EmptyString \/ exists r, rest = String sep r) /\
    contains sep (hd EmptyString (split sep s)) = false.
Proof.
  induction s as [|c s (rest & Hs & Hrest & Hno)]; simpl.
  - exists EmptyString; auto.
  - destruct (Ascii.eqb c sep) eqn:Hc.
    + apply Ascii.eqb_eq in Hc as ->. exists (String sep s); simpl; eauto.
    + pose proof (split_nonempty sep s) as Hne.
      destruct (split sep s) as [|w ws]; [congruence|]. simpl in *.
      exists rest. rewrite Hc, Hno. split; [now rewrite <- Hs|auto].
Qed.

(** [rstrip] removes a run of the character at the end, and what is left
    does not end with it. *)
Lemma rstrip_spec (c : ascii) (s : string) :
  exists t,
    s = rstrip c s ++ t /\ only c t = true /\ last_char (rstrip c s) <> Some c.
Proof.
  induction s as [|a s (t & Hs & Ht & Hlast)]; simpl.
  - exists EmptyString; repeat split; discriminate.
  - destruct (rstrip c s) as [|b r] eqn:Hr.
    + simpl in Hs. subst t.
      destruct (Ascii.eqb a c) eqn:Hac.
      * exists (String a s). simpl. rewrite Hac, Ht. repeat split; discriminate.
      * exists s. simpl. repeat split; auto.
        intros [= ->]. now rewrite Ascii.eqb_refl in Hac.
    + exists t. simpl in *. rewrite <- Hs. repeat split; auto.
Qed.

Lemma string_app_assoc (a b c : string) : (a ++ b) ++ c = a ++ (b ++ c).
Proof. induction a as [|x a IH]; simpl; [reflexivity|now rewrite IH]. Qed.

Lemma contains_app_false (c : ascii) (a b : string) :
  contains c (a ++ b) = false -> contains c a = false.
Proof.
  induction a as [|x a IH]; simpl; [reflexivity|].
  intros H. apply orb_false_iff in H as [-> H]. now apply IH.
Qed.

(** The base of a request: the URL without its query string and without
    the slashes that end its path. *)
Lemma base_url_spec (request : Request) :
  exists slashes rest,
    url request = base_url request ++ slashes ++ rest /\
    only "/" slashes = true /\
    (rest = EmptyString \/ exists query, rest = String "?" query) /\
    contains "?" (base_url request) = false /\
    last_char (base_url request) <> Some "/"%char.
Proof.
  unfold base_url.
  destruct (split_head "?" (url request)) as (rest & Hu & Hrest & Hno).
  destruct (rstrip_spec "/" (hd EmptyString (split "?" (url request))))
    as (t & Hp & Ht & Hlast).
  exists t, rest. repeat split; auto.
  - rewrite Hu at 1. rewrite Hp at 1. now rewrite string_app_assoc.
  - rewrite Hp in Hno. now apply contains_app_false in Hno.
Qed.

End Urls.

Section Listing.

Variable zarr_codec_encode : ndarray -> Result Encoded.
Variable item_bytes : Z -> list Byte.byte.
Variable request : Request.
Variable block : option string.

Lemma listing_body (u : string) (names : list string) :
  listing u names
  = mk_response (Text (json_dumps (JList (map JStr (child_urls u names)))))
                200 (Some "application/json").
Proof. unfold listing, child_urls. rewrite map_map. reflexivity. Qed.

Lemma child_urls_nth (u : string) (names : list string) (i : nat) (name : string) :
  nth_error names i = Some name ->
  nth_error (child_urls u names) i = Some (u ++ "/" ++ name).
Proof. intros H. unfold child_urls. now rewrite nth_error_map, H. Qed.

Lemma lists_runs (entry : Entry) (names : list string) (calls : list Event) :
  lists entry names calls ->
  run (get_zarr_array zarr_codec_encode item_bytes request block entry)
  = (calls, Ok (listing (base_url request) names)).
Proof.
  intros H. unfold get_zarr_array, run, bind.
  destruct H as [range names Hf Hk Hr|names Hf Hk Hr|names Hf Hs|fields cs sh Hf Hs];
    rewrite Hf; simpl.
  - rewrite Hk. unfold call. now rewrite Hr.
  - rewrite Hk. unfold call. now rewrite Hr.
  - now rewrite Hs.
  - now rewrite Hs.
Qed.

End Listing.

(** C9: a listing request is answered with the JSON array of the child
    URLs; the URL of a child is the base URL (the request URL without the
    query string and without the slashes that end the path), a slash, and
    the name of the child; the children come in the order of the names,
    which are the keys as the key enumerator returned them, the columns of
    a table, or the fields of a structured array as declared; no name gives
    the empty JSON array. *)
Theorem listing_returns_child_urls
  (zarr_codec_encode : ndarray -> Result Encoded)
  (item_bytes : Z -> list Byte.byte)
  (request : Request) (block : option string)
  (entry : Entry) (names : list string) (calls : list Event) :
  lists entry names calls ->
  let urls := child_urls (base_url request) names in
  run (get_zarr_array zarr_codec_encode item_bytes request block entry)
    = (calls, Ok (mk_response (Text (json_dumps (JList (map JStr urls))))
                              200 (Some "application/json"))) /\
  List.length urls = List.length names /\
  (forall i name, nth_error names i = Some name ->
                  nth_error urls i = Some (base_url request ++ "/" ++ name)) /\
  (exists slashes rest,
      url request = base_url request ++ slashes ++ rest /\
      only "/" slashes = true /\
      (rest = EmptyString \/ exists query, rest = String "?" query) /\
      contains "?" (base_url request) = false /\
      last_char (base_url request) <> Some "/"%char) /\
  (names = [] -> json_dumps (JList (map JStr urls)) = "[]").
Proof.
  intros Hl urls. repeat split.
  - rewrite (lists_runs zarr_codec_encode item_bytes request block _ _ _ Hl).
    now rewrite listing_body.
  - apply length_map.
  - intros i name. apply child_urls_nth.
  - apply base_url_spec.
  - intros Hn. subst urls. now rewrite Hn.
Qed.

Lemma listing_returns_child_urls_witness :
  run (get_zarr_array Examples.raw_codec Examples.one_byte
         (Examples.request "http://h/api/foo/?limit=2") None
         (Examples.container_entry ["a"; "b"]))
  = ([KeysRangeCall 0 None],
     Ok (mk_response
           (Text (json_dumps (JList [JStr "http://h/api/foo/a";
                                     JStr "http://h/api/foo/b"])))
           200 (Some "application/json"))).
Proof.
  refine (proj1 (listing_returns_child_urls Examples.raw_codec Examples.one_byte
                   (Examples.request "http://h/api/foo/?limit=2") None
                   (Examples.container_entry ["a"; "b"]) ["a"; "b"]
                   [KeysRangeCall 0 None] _)).
  apply (lists_keys_range _ (fun _ _ => Ok ["a"; "b"])); reflexivity.
Defined.

(** ** Block requests: what is rejected, what is read *)

Section BlockRequests.

Variable zarr_codec_encode : ndarray -> Result Encoded.
Variable item_bytes : Z -> list Byte.byte.
Variable request : Request.

(** An entry of the array or sparse family whose structure is that of an
    array with a builtin data type: the entries block requests reach. *)
Variable entry : Entry.
Variable numpy_str : string.
Variable cs : list (list Z).
Variable sh : list Z.
Hypothesis Hfamily :
  StructureFamily.mem (structure_family entry)
    [StructureFamily.array; StructureFamily.sparse] = true.
Hypothesis Hstructure :
  structure entry = ArrayStructure (BuiltinDtype numpy_str) cs sh.

Lemma block_request_runs_pipeline (block : string) :
  get_zarr_array zarr_codec_encode item_bytes request (Some block) entry
  = (a <- zarr_block block entry ;; encode_block zarr_codec_encode item_bytes a).
Proof.
  unfold get_zarr_array. revert Hfamily.
  destruct (structure_family entry) eqn:Hf; try discriminate; intros _; simpl.
  - unfold bind at 1. unfold bind at 1. unfold lift, ret. rewrite Hstructure.
    reflexivity.
  - reflexivity.
Qed.

Variable block : string.

(** A block parameter that does not parse: the exception of [int] leaves
    the handler as it is, before anything is read. *)
Lemma unparsed_block_raises (e : exception) :
  ResultMonad.comprehension py_int (split "," block) = Raise e ->
  run (zarr_block block entry) = ([], Raise e) /\
  run (get_zarr_array zarr_codec_encode item_bytes request (Some block) entry)
    = ([], Raise e).
Proof.
  intros Hp.
  assert (H : run (zarr_block block entry) = ([], Raise e)).
  { unfold run, zarr_block, bind, lift. now rewrite Hp. }
  split; [exact H|].
  rewrite block_request_runs_pipeline. unfold run, bind in *. now rewrite H.
Qed.

Variable zarr_block_indx : list Z.
Hypothesis Hparse :
  ResultMonad.comprehension py_int (split "," block) = Ok zarr_block_indx.

Variable zarr_block_spec : list Z.
Hypothesis Hconvert : convert_chunks_for_zarr cs = Ok zarr_block_spec.

Let scalar_exception : bool :=
  list_Z_eqb zarr_block_spec [] && list_Z_eqb zarr_block_indx [0].

Let mismatch : bool :=
  negb scalar_exception
  && negb (List.length zarr_block_spec =? List.length zarr_block_indx)%nat.

Let block_slices : list slice :=
  block_slices_of zarr_block_indx zarr_block_spec.

Lemma zarr_block_steps :
  run (zarr_block block entry)
  = if mismatch then ([], Raise (inconsistent_error zarr_block_indx sh))
    else match read entry block_slices with
         | Ok value => ([ReadCall block_slices], pad_block block_slices sh value)
         | Raise e =>
             ([ReadCall block_slices],
              Raise (if is_class IndexError e
                     then out_of_range_error zarr_block_indx else e))
         end.
Proof.
  unfold run, zarr_block, bind, lift. rewrite Hparse, Hstructure. simpl.
  rewrite Hconvert.
  fold scalar_exception. fold mismatch.
  destruct mismatch; [reflexivity|].
  fold block_slices. unfold try_except, call. simpl.
  destruct (read entry block_slices) as [value|e]; simpl.
  - unfold pad_block.
    destruct (sum (padding_size_of block_slices sh) >? 0); reflexivity.
  - destruct (is_class IndexError e); reflexivity.
Qed.

Lemma handler_steps :
  run (get_zarr_array zarr_codec_encode item_bytes request (Some block) entry)
  = match run (zarr_block block entry) with
    | (calls, Ok a) => encode_block zarr_codec_encode item_bytes a calls
    | (calls, Raise e) => (calls, Raise e)
    end.
Proof. rewrite block_request_runs_pipeline. reflexivity. Qed.

Lemma encode_block_keeps_calls (a : ndarray) (calls : list Event) :
  fst (encode_block zarr_codec_encode item_bytes a calls) = calls.
Proof.
  unfold encode_block, bind, lift, ret.
  destruct (zarr_codec_encode a) as [enc|e]; [destruct enc|]; reflexivity.
Qed.

Lemma mismatch_iff :
  mismatch = true <->
  List.length zarr_block_indx <> List.length zarr_block_spec /\
  ~ (zarr_block_spec = [] /\ zarr_block_indx = [0]).
Proof.
  unfold mismatch. rewrite andb_true_iff, !negb_true_iff, Nat.eqb_neq.
  unfold scalar_exception, list_Z_eqb.
  destruct (list_eq_dec Z.eq_dec zarr_block_spec []) as [Hs|Hs];
    destruct (list_eq_dec Z.eq_dec zarr_block_indx [0]) as [Hi|Hi]; simpl;
    (split; intros [H1 H2]; split;
     [congruence || tauto | congruence || tauto ..]).
Qed.

End BlockRequests.
Section ParseFailures.

Lemma py_int_raises_value_error (s : string) (e : exception) :
  py_int s = Raise e -> e = invalid_literal s.
Proof.
  unfold py_int.
  destruct (lstrip_space (transform_decimal_and_space s)) as [|c t] eqn:Ht.
  - now intros [= <-].
  - set (sb := match String c t with
               | String "-" r => (-1, r)
               | String "+" r => (1, r)
               | _ => (1, String c t)
               end).
    destruct sb as [sign body]. destruct body as [|d body'].
    + now intros [= <-].
    + destruct (is_digit d); [|now intros [= <-]].
      destruct (scan_digits _ _ _) as [[v rest]|]; [|now intros [= <-]].
      destruct (lstrip_space rest); [discriminate|now intros [= <-]].
Qed.

Lemma comprehension_raises (parts : list string) (e : exception) :
  ResultMonad.comprehension py_int parts = Raise e ->
  exists part, In part parts /\ e = invalid_literal part.
Proof.
  induction parts as [|p parts IH]; simpl; [discriminate|].
  destruct (py_int p) as [z|e'] eqn:Hp; simpl.
  - destruct (ResultMonad.comprehension py_int parts) as [zs|e'']; simpl;
      [discriminate|].
    intros [= <-]. destruct (IH eq_refl) as (part & Hin & He). eauto.
  - intros [= <-]. exists p. split; [now left|].
    now apply py_int_raises_value_error.
Qed.

End ParseFailures.

(** C4: a block request whose coordinate has another length than the
    uniform block shape raises the bad-request [HTTPException] with nothing
    read and no response built, unless the block shape is empty and the
    coordinate is [[0]]; in that one case the read is made (with no slice)
    and the value read is encoded and returned. *)
Theorem length_mismatch_is_rejected
  (zarr_codec_encode : ndarray -> Result Encoded)
  (item_bytes : Z -> list Byte.byte) (request : Request)
  (entry : Entry) (numpy_str : string) (cs : list (list Z)) (sh : list Z)
  (block : string) (zarr_block_indx zarr_block_spec : list Z) :
  StructureFamily.mem (structure_family entry)
    [StructureFamily.array; StructureFamily.sparse] = true ->
  structure entry = ArrayStructure (BuiltinDtype numpy_str) cs sh ->
  ResultMonad.comprehension py_int (split "," block) = Ok zarr_block_indx ->
  convert_chunks_for_zarr cs = Ok zarr_block_spec ->
  let response :=
    run (get_zarr_array zarr_codec_encode item_bytes request (Some block) entry) in
  (List.length zarr_block_indx <> List.length zarr_block_spec ->
   ~ (zarr_block_spec = [] /\ zarr_block_indx = [0]) ->
   response = ([], Raise (inconsistent_error zarr_block_indx sh)) /\
   http_status (snd response) = HTTP_400_BAD_REQUEST) /\
  (zarr_block_spec = [] -> zarr_block_indx = [0] ->
   fst response = [ReadCall []] /\
   forall value, read entry [] = Ok value ->
     response = encode_block zarr_codec_encode item_bytes (densify value)
                  [ReadCall []]).
Proof.
  intros Hf Hs Hp Hc response.
  pose proof (handler_steps zarr_codec_encode item_bytes request entry
                numpy_str cs sh Hf Hs block) as Hh.
  pose proof (zarr_block_steps entry numpy_str cs sh Hs block
                zarr_block_indx Hp zarr_block_spec Hc) as Hz.
  fold response in Hh. split.
  - intros Hlen Hnot.
    assert (Hm := proj2 (mismatch_iff zarr_block_indx zarr_block_spec)
                    (conj Hlen Hnot)).
    rewrite Hm in Hz. rewrite Hz in Hh. now rewrite Hh.
  - intros -> ->. simpl in Hz.
    change (block_slices_of [0] []) with (@nil slice) in Hz.
    destruct (read entry []) as [value|e] eqn:Hr.
    + rewrite Hz in Hh. unfold pad_block in Hh. simpl in Hh. split.
      * rewrite Hh. apply encode_block_keeps_calls.
      * now intros v [= <-].
    + rewrite Hz in Hh. split; [now rewrite Hh|discriminate].
Qed.

Lemma length_mismatch_is_rejected_witness :
  run (get_zarr_array Examples.raw_codec Examples.one_byte
         (Examples.request "http://h/a?block=0,0") (Some "0,0") Examples.entry25)
  = ([], Raise (inconsistent_error [0; 0] [25])).
Proof.
  refine (proj1 (proj1 (length_mismatch_is_rejected
                          Examples.raw_codec Examples.one_byte
                          (Examples.request "http://h/a?block=0,0")
                          Examples.entry25 "<i8" [[10; 10; 5]] [25] "0,0"
                          [0; 0] [10] eq_refl eq_refl eq_refl eq_refl) _ _)).
  - simpl; lia.
  - intros [H _]; discriminate H.
Defined.

(** C5 (what the handler does): a block parameter with a component that
    [int] does not accept makes the handler raise the [ValueError] of that
    component before anything is read; the handler does not turn it into
    an [HTTPException], so the request is answered with status 500, not
    400.  The components [a] and the empty one are such components. *)
Theorem malformed_block_is_internal_error
  (zarr_codec_encode : ndarray -> Result Encoded)
  (item_bytes : Z -> list Byte.byte) (request : Request)
  (entry : Entry) (numpy_str : string) (cs : list (list Z)) (sh : list Z) :
  StructureFamily.mem (structure_family entry)
    [StructureFamily.array; StructureFamily.sparse] = true ->
  structure entry = ArrayStructure (BuiltinDtype numpy_str) cs sh ->
  (forall block e,
     ResultMonad.comprehension py_int (split "," block) = Raise e ->
     let response :=
       run (get_zarr_array zarr_codec_encode item_bytes request (Some block) entry) in
     (exists part, In part (split "," block) /\
                   response = ([], Raise (invalid_literal part))) /\
     http_status (snd response) = HTTP_500_INTERNAL_SERVER_ERROR) /\
  run (get_zarr_array zarr_codec_encode item_bytes request (Some "a") entry)
    = ([], Raise (invalid_literal "a")) /\
  run (get_zarr_array zarr_codec_encode item_bytes request (Some "1,,2") entry)
    = ([], Raise (invalid_literal EmptyString)).
Proof.
  intros Hf Hs.
  assert (Hgen : forall block e,
             ResultMonad.comprehension py_int (split "," block) = Raise e ->
             run (get_zarr_array zarr_codec_encode item_bytes request
                    (Some block) entry) = ([], Raise e)).
  { intros block e He.
    apply (unparsed_block_raises zarr_codec_encode item_bytes request entry
             numpy_str cs sh Hf Hs block e He). }
  split; [|split].
  - intros block e He response. subst response. rewrite (Hgen block e He).
    destruct (comprehension_raises _ _ He) as (part & Hin & ->).
    split; [exists part; auto|reflexivity].
  - now apply Hgen.
  - now apply Hgen.
Qed.

Lemma malformed_block_is_internal_error_witness :
  http_status
    (snd (run (get_zarr_array Examples.raw_codec Examples.one_byte
                 (Examples.request "http://h/a?block=a") (Some "a")
                 Examples.entry25)))
  = HTTP_500_INTERNAL_SERVER_ERROR.
Proof.
  destruct (malformed_block_is_internal_error
              Examples.raw_codec Examples.one_byte
              (Examples.request "http://h/a?block=a") Examples.entry25
              "<i8" [[10; 10; 5]] [25] eq_refl eq_refl) as (H & _ & _).
  exact (proj2 (H "a" (invalid_literal "a") eq_refl)).
Defined.

(** C6: with a coordinate that parses and has the length of the block
    shape, an [IndexError] of the read becomes the bad-request
    [HTTPException] (status 400); any other exception of the read leaves
    the handler unchanged, and when it is not itself an [HTTPException]
    the request is answered with status 500. *)
Theorem read_faults_are_mapped
  (zarr_codec_encode : ndarray -> Result Encoded)
  (item_bytes : Z -> list Byte.byte) (request : Request)
  (entry : Entry) (numpy_str : string) (cs : list (list Z)) (sh : list Z)
  (block : string) (zarr_block_indx zarr_block_spec : list Z) (e : exception) :
  StructureFamily.mem (structure_family entry)
    [StructureFamily.array; StructureFamily.sparse] = true ->
  structure entry = ArrayStructure (BuiltinDtype numpy_str) cs sh ->
  ResultMonad.comprehension py_int (split "," block) = Ok zarr_block_indx ->
  convert_chunks_for_zarr cs = Ok zarr_block_spec ->
  List.length zarr_block_indx = List.length zarr_block_spec ->
  read entry (block_slices_of zarr_block_indx zarr_block_spec) = Raise e ->
  let response :=
    run (get_zarr_array zarr_codec_encode item_bytes request (Some block) entry) in
  (is_class IndexError e = true ->
   response = ([ReadCall (block_slices_of zarr_block_indx zarr_block_spec)],
               Raise (out_of_range_error zarr_block_indx)) /\
   http_status (snd response) = HTTP_400_BAD_REQUEST) /\
  (is_class IndexError e = false ->
   response = ([ReadCall (block_slices_of zarr_block_indx zarr_block_spec)],
               Raise e) /\
   (is_http e = false ->
    http_status (snd response) = HTTP_500_INTERNAL_SERVER_ERROR)).
Proof.
  intros Hf Hs Hp Hc Hlen Hr response.
  pose proof (handler_steps zarr_codec_encode item_bytes request entry
                numpy_str cs sh Hf Hs block) as Hh.
  pose proof (zarr_block_steps entry numpy_str cs sh Hs block
                zarr_block_indx Hp zarr_block_spec Hc) as Hz.
  fold response in Hh.
  assert (Hm : negb (list_Z_eqb zarr_block_spec [] && list_Z_eqb zarr_block_indx [0])
               && negb (List.length zarr_block_spec =? List.length zarr_block_indx)%nat
               = false).
  { rewrite Hlen, Nat.eqb_refl. apply andb_false_r. }
  rewrite Hm, Hr in Hz. rewrite Hz in Hh.
  split; intros He; rewrite He in Hh; rewrite Hh; split; try reflexivity.
  destruct e; [reflexivity|discriminate].
Qed.

Lemma read_faults_are_mapped_witness :
  run (get_zarr_array Examples.raw_codec Examples.one_byte
         (Examples.request "http://h/a?block=7") (Some "7")
         (Examples.failing_entry (PyExc IndexError "index out of bounds")))
  = ([ReadCall [mk_slice 70 80]], Raise (out_of_range_error [7])) /\
  run (get_zarr_array Examples.raw_codec Examples.one_byte
         (Examples.request "http://h/a?block=7") (Some "7")
         (Examples.failing_entry (PyExc (OtherException "OSError") "disk")))
  = ([ReadCall [mk_slice 70 80]], Raise (PyExc (OtherException "OSError") "disk")).
Proof.
  split.
  - exact (proj1 (proj1 (read_faults_are_mapped
             Examples.raw_codec Examples.one_byte
             (Examples.request "http://h/a?block=7")
             (Examples.failing_entry (PyExc IndexError "index out of bounds"))
             "<i8" [[10; 10; 5]] [25] "7" [7] [10]
             (PyExc IndexError "index out of bounds")
             eq_refl eq_refl eq_refl eq_refl eq_refl eq_refl) eq_refl)).
  - exact (proj1 (proj2 (read_faults_are_mapped
             Examples.raw_codec Examples.one_byte
             (Examples.request "http://h/a?block=7")
             (Examples.failing_entry (PyExc (OtherException "OSError") "disk"))
             "<i8" [[10; 10; 5]] [25] "7" [7] [10]
             (PyExc (OtherException "OSError") "disk")
             eq_refl eq_refl eq_refl eq_refl eq_refl eq_refl) eq_refl)).
Defined.

Section NegativeCoordinates.

Lemma convert_range (cs : list (list Z)) (bs : list Z) :
  convert_chunks_for_zarr cs = Ok bs ->
  Forall (fun c => 1 <= c <= ZARR_BLOCK_SIZE) bs.
Proof.
  intros H. apply convert_pointwise in H.
  induction H as [|tc c cs bs Hc _ IH]; constructor; auto.
  exact (zarr_block_size_range _ _ Hc).
Qed.

Lemma in_combine_l_exists {A B : Type} (l : list A) (l' : list B) (x : A) :
  List.length l = List.length l' -> In x l -> exists y, In (x, y) (combine l l').
Proof.
  revert l'; induction l as [|a l IH]; intros [|b l'] Hlen Hin;
    simpl in *; try tauto; try discriminate.
  destruct Hin as [->|Hin].
  - exists b; now left.
  - destruct (IH l' (eq_add_S _ _ Hlen) Hin) as [y Hy]. exists y; now right.
Qed.

Lemma np_pad_raises_no_http (a : ndarray) (after : list Z) status detail :
  np_pad a after <> Raise (HTTPException status detail).
Proof.
  unfold np_pad. destruct after as [|p [|q after]]; try discriminate.
  destruct (_ =? _)%nat; discriminate.
Qed.

Lemma pad_block_raises_no_http slices sh value status detail :
  pad_block slices sh value <> Raise (HTTPException status detail).
Proof.
  unfold pad_block. destruct (_ >? _); [apply np_pad_raises_no_http|discriminate].
Qed.

End NegativeCoordinates.

(** C10: a coordinate that parses, has the length of the block shape and
    holds a negative value is not checked for sign: the read is made, with
    the slice [slice(i*c, (i+1)*c)] of every dimension, among them one whose
    bounds are negative (its start is below zero and its stop is not above
    zero); when the read returns, the pipeline goes on to pad what was
    read and raises no [HTTPException]. *)
Theorem negative_coordinate_is_forwarded
  (zarr_codec_encode : ndarray -> Result Encoded)
  (item_bytes : Z -> list Byte.byte) (request : Request)
  (entry : Entry) (numpy_str : string) (cs : list (list Z)) (sh : list Z)
  (block : string) (zarr_block_indx zarr_block_spec : list Z) :
  StructureFamily.mem (structure_family entry)
    [StructureFamily.array; StructureFamily.sparse] = true ->
  structure entry = ArrayStructure (BuiltinDtype numpy_str) cs sh ->
  ResultMonad.comprehension py_int (split "," block) = Ok zarr_block_indx ->
  convert_chunks_for_zarr cs = Ok zarr_block_spec ->
  List.length zarr_block_indx = List.length zarr_block_spec ->
  (exists i, In i zarr_block_indx /\ i < 0) ->
  let block_slices :=
    map (fun ic => mk_slice (fst ic * snd ic) ((fst ic + 1) * snd ic))
        (combine zarr_block_indx zarr_block_spec) in
  fst (run (get_zarr_array zarr_codec_encode item_bytes request (Some block) entry))
    = [ReadCall block_slices] /\
  (exists sl, In sl block_slices /\ start sl < 0 /\ stop sl <= 0) /\
  (forall value,
     read entry block_slices = Ok value ->
     run (zarr_block block entry)
       = ([ReadCall block_slices], pad_block block_slices sh value) /\
     forall status detail,
       snd (run (zarr_block block entry)) <> Raise (HTTPException status detail)).
Proof.
  intros Hf Hs Hp Hc Hlen (i & Hi & Hneg) block_slices.
  pose proof (handler_steps zarr_codec_encode item_bytes request entry
                numpy_str cs sh Hf Hs block) as Hh.
  pose proof (zarr_block_steps entry numpy_str cs sh Hs block
                zarr_block_indx Hp zarr_block_spec Hc) as Hz.
  assert (Hm : negb (list_Z_eqb zarr_block_spec [] && list_Z_eqb zarr_block_indx [0])
               && negb (List.length zarr_block_spec =? List.length zarr_block_indx)%nat
               = false).
  { rewrite Hlen, Nat.eqb_refl. apply andb_false_r. }
  rewrite Hm in Hz. fold (block_slices_of zarr_block_indx zarr_block_spec) in block_slices.
  fold block_slices in Hz.
  repeat split.
  - rewrite Hh, Hz. destruct (read entry block_slices) as [value|e]; [|reflexivity].
    destruct (pad_block block_slices sh value); [|reflexivity].
    apply encode_block_keeps_calls.
  - destruct (in_combine_l_exists _ zarr_block_spec i Hlen Hi) as [c Hin].
    exists (mk_slice (i * c) ((i + 1) * c)). split.
    + subst block_slices. unfold block_slices_of.
      apply in_map_iff. exists (i, c). split; [reflexivity|exact Hin].
    + apply in_combine_r in Hin.
      pose proof (convert_range _ _ Hc) as Hr.
      rewrite Forall_forall in Hr. specialize (Hr c Hin). simpl. nia.
  - rewrite Hz, H. reflexivity.
  - intros status detail. rewrite Hz, H. simpl. apply pad_block_raises_no_http.
Qed.

Lemma negative_coordinate_is_forwarded_witness :
  fst (run (get_zarr_array Examples.raw_codec Examples.one_byte
              (Examples.request "http://h/a?block=-1") (Some "-1")
              Examples.entry25))
  = [ReadCall [mk_slice (-10) 0]].
Proof.
  refine (proj1 (negative_coordinate_is_forwarded
                   Examples.raw_codec Examples.one_byte
                   (Examples.request "http://h/a?block=-1")
                   Examples.entry25 "<i8" [[10; 10; 5]] [25] "-1" [-1] [10]
                   eq_refl eq_refl eq_refl eq_refl eq_refl _)).
  exists (-1). split; [now left|lia].
Defined.

(** ** Padding: the shape and the elements of a padded array *)

Section Padding.

Lemma rows_length (n k : nat) (d : list Z) : List.length (rows n k d) = n.
Proof. revert d; induction n as [|n IH]; intros d; simpl; auto. Qed.

Lemma rows_each (n k : nat) (d : list Z) :
  List.length d = (n * k)%nat ->
  Forall (fun r => List.length r = k) (rows n k d).
Proof.
  revert d; induction n as [|n IH]; intros d Hd; simpl; constructor.
  - rewrite length_firstn. simpl in Hd. lia.
  - apply IH. rewrite length_skipn. simpl in Hd. lia.
Qed.

Lemma rows_nth (n k i : nat) (d : list Z) :
  (i < n)%nat -> nth i (rows n k d) [] = firstn k (skipn (i * k) d).
Proof.
  revert i d; induction n as [|n IH]; intros i d Hi; [lia|].
  destruct i as [|i]; simpl; [reflexivity|].
  rewrite IH by lia. rewrite skipn_skipn. f_equal. f_equal. lia.
Qed.

Lemma concat_length_uniform (m : nat) (ls : list (list Z)) :
  Forall (fun r => List.length r = m) ls ->
  List.length (List.concat ls) = (List.length ls * m)%nat.
Proof.
  induction 1 as [|r ls Hr _ IH]; simpl; [reflexivity|].
  rewrite length_app, IH, Hr. reflexivity.
Qed.

(** The [i]-th run of [m] elements of a concatenation of lists of length
    [m] is the [i]-th list. *)
Lemma chunk_nth (m : nat) (ls : list (list Z)) (t : list Z) (i : nat) :
  Forall (fun r => List.length r = m) ls ->
  (i < List.length ls)%nat ->
  firstn m (skipn (i * m) (List.concat ls ++ t)) = nth i ls [].
Proof.
  intros H; revert i; induction H as [|r ls Hr _ IH]; intros i Hi;
    simpl in *; [lia|].
  destruct i as [|i]; simpl.
  - rewrite <- app_assoc, firstn_app, Hr, Nat.sub_diag.
    rewrite <- Hr at 1. rewrite firstn_all. simpl. apply app_nil_r.
  - rewrite <- app_assoc, skipn_app, Hr.
    rewrite skipn_all2 by lia. simpl.
    replace (m + i * m - m)%nat with (i * m)%nat by lia.
    apply IH. lia.
Qed.

(** Past the lists, the runs lie in what follows the concatenation. *)
Lemma chunk_beyond (m : nat) (ls : list (list Z)) (t : list Z) (j : nat) :
  Forall (fun r => List.length r = m) ls ->
  skipn ((List.length ls + j) * m) (List.concat ls ++ t) = skipn (j * m) t.
Proof.
  induction 1 as [|r ls Hr _ IH]; simpl; [reflexivity|].
  rewrite <- app_assoc, skipn_app, Hr.
  rewrite skipn_all2 by lia. simpl.
  replace (m + (List.length ls + j) * m - m)%nat
    with ((List.length ls + j) * m)%nat by lia.
  exact IH.
Qed.

Lemma Forall_firstn (P : Z -> Prop) (a : nat) (d : list Z) :
  Forall P d -> Forall P (firstn a d).
Proof.
  intros H; revert a; induction H as [|x d Hx _ IH]; intros [|a]; simpl;
    constructor; auto.
Qed.

Lemma Forall_skipn (P : Z -> Prop) (a : nat) (d : list Z) :
  Forall P d -> Forall P (skipn a d).
Proof.
  intros H; revert a; induction H as [|x d Hx Hd IH]; intros [|a]; simpl;
    auto.
Qed.

Lemma nd_get_zeros (sh : list nat) (d : list Z) (idx : list nat) :
  Forall (fun x => x = 0) d -> nd_get sh d idx = 0.
Proof.
  revert d idx; induction sh as [|n sh IH]; intros d idx Hd; simpl.
  - destruct Hd; auto.
  - destruct idx as [|i idx]; [destruct Hd; auto|].
    apply IH. now apply Forall_firstn, Forall_skipn.
Qed.

Lemma Forall_repeat_zero (n : nat) : Forall (fun x => x = 0) (repeat 0 n).
Proof. induction n; simpl; constructor; auto. Qed.

Lemma padded_shape_length (sh ps : list nat) :
  List.length ps = List.length sh ->
  List.length (padded_shape sh ps) = List.length sh.
Proof.
  intros H. unfold padded_shape. rewrite length_map, length_combine. lia.
Qed.

Lemma pad_data_length (sh ps : list nat) (d : list Z) :
  List.length ps = List.length sh ->
  List.length d = size sh ->
  List.length (pad_data sh ps d) = size (padded_shape sh ps).
Proof.
  revert ps d; induction sh as [|n sh IH]; intros [|p ps] d Hl Hd;
    simpl in *; try discriminate; auto.
  rewrite length_app, repeat_length.
  rewrite (concat_length_uniform (size (padded_shape sh ps))).
  - rewrite length_map, rows_length.
    fold (padded_shape sh ps). lia.
  - apply Forall_map.
    eapply Forall_impl; [|apply rows_each; rewrite Hd; reflexivity].
    intros r Hr. simpl in Hr. apply IH; [lia|exact Hr].
Qed.

(** Inside the old shape a padded array holds the old elements, and
    everywhere else it holds zero. *)
Lemma pad_data_get (sh ps : list nat) (d : list Z) (idx : list nat) :
  List.length ps = List.length sh ->
  List.length d = size sh ->
  inside (padded_shape sh ps) idx = true ->
  nd_get (padded_shape sh ps) (pad_data sh ps d) idx
  = if inside sh idx then nd_get sh d idx else 0.
Proof.
  revert ps d idx; induction sh as [|n sh IH]; intros [|p ps] d idx Hl Hd Hin;
    simpl in *; try discriminate.
  - destruct idx; [reflexivity|discriminate].
  - destruct idx as [|i idx]; [discriminate|].
    fold (padded_shape sh ps) in *.
    apply andb_true_iff in Hin as [Hi Hin].
    set (k' := size (padded_shape sh ps)).
    assert (Hrows : Forall (fun r => List.length r = k')
                      (map (pad_data sh ps) (rows n (size sh) d))).
    { apply Forall_map.
      eapply Forall_impl; [|apply rows_each; rewrite Hd; reflexivity].
      intros r Hr. simpl in Hr. apply pad_data_length; [lia|exact Hr]. }
    destruct (Nat.ltb_spec i n) as [Hlt|Hge]; simpl.
    + rewrite (chunk_nth k' _ _ i Hrows)
        by (rewrite length_map, rows_length; exact Hlt).
      rewrite (nth_indep _ [] (pad_data sh ps []))
        by (rewrite length_map, rows_length; exact Hlt).
      rewrite map_nth, rows_nth by exact Hlt.
      assert (Hrow : List.length (firstn (size sh) (skipn (i * size sh) d))
                     = size sh).
      { rewrite length_firstn, length_skipn, Hd. nia. }
      apply IH; auto.
    + replace i with (List.length (map (pad_data sh ps) (rows n (size sh) d))
                      + (i - n))%nat
        by (rewrite length_map, rows_length; lia).
      rewrite (chunk_beyond k' _ _ (i - n) Hrows).
      apply nd_get_zeros.
      apply Forall_firstn, Forall_skipn, Forall_repeat_zero.
Qed.

End Padding.
(** ** The shape of a served block *)

Section BlockShape.

Lemma sum_from (l : list Z) (a : Z) : fold_left Z.add l a = a + sum l.
Proof.
  unfold sum. revert a; induction l as [|x l IH]; intros a; simpl; [lia|].
  rewrite (IH (a + x)), (IH x). lia.
Qed.

Lemma sum_cons (x : Z) (l : list Z) : sum (x :: l) = x + sum l.
Proof. unfold sum at 1. simpl. apply sum_from. Qed.

Lemma padding_nonneg (slices : list slice) (sh : list Z) :
  0 <= sum (padding_size_of slices sh).
Proof.
  unfold padding_size_of.
  induction (combine slices sh) as [|ss l IH]; simpl; [reflexivity|].
  rewrite sum_cons. lia.
Qed.

Lemma np_pad_ok (a : ndarray) (after : list Z) :
  List.length after = List.length (nd_shape a) ->
  after <> [] ->
  np_pad a after
  = Ok (mk_ndarray (padded_shape (nd_shape a) (map Z.to_nat after))
                   (pad_data (nd_shape a) (map Z.to_nat after) (nd_data a))).
Proof.
  intros Hl Hne. unfold np_pad. destruct after as [|p [|q after]].
  - congruence.
  - rewrite <- Hl. reflexivity.
  - rewrite Hl, Nat.eqb_refl. reflexivity.
Qed.

(** One dimension: what was read and the padding make up the block. *)
Lemma extent_plus_padding (i c s : Z) (n : nat) :
  0 <= i -> i * c <= s -> 0 <= c ->
  Z.of_nat n = clipped_extent (mk_slice (i * c) ((i + 1) * c)) s ->
  Z.of_nat (n + Z.to_nat (Z.max 0 ((i + 1) * c - s))) = c /\
  (Z.max 0 ((i + 1) * c - s) = 0 -> Z.of_nat n = c).
Proof.
  unfold clipped_extent. simpl. intros Hi His Hc Hn.
  replace ((i + 1) * c) with (i * c + c) in * by ring.
  assert (0 <= i * c) by nia. lia.
Qed.

Lemma block_slices_cons (i c : Z) (indx spec : list Z) :
  block_slices_of (i :: indx) (c :: spec)
  = mk_slice (i * c) ((i + 1) * c) :: block_slices_of indx spec.
Proof. reflexivity. Qed.

Lemma padding_size_cons (sl : slice) (s : Z) (slices : list slice) (sh : list Z) :
  padding_size_of (sl :: slices) (s :: sh)
  = Z.max 0 (stop sl - s) :: padding_size_of slices sh.
Proof. reflexivity. Qed.

Lemma clipped_shape_cons (sl : slice) (s : Z) (slices : list slice) (sh : list Z) :
  clipped_shape (sl :: slices) (s :: sh)
  = clipped_extent sl s :: clipped_shape slices sh.
Proof. reflexivity. Qed.

Lemma padded_shape_cons (n p : nat) (ns ps : list nat) :
  padded_shape (n :: ns) (p :: ps) = (n + p)%nat :: padded_shape ns ps.
Proof. reflexivity. Qed.

Lemma grid_shapes (indx spec sh : list Z) (ns : list nat) :
  in_grid indx spec sh ->
  Forall (fun c => 0 <= c) spec ->
  map Z.of_nat ns = clipped_shape (block_slices_of indx spec) sh ->
  List.length (padding_size_of (block_slices_of indx spec) sh) = List.length ns /\
  map Z.of_nat
    (padded_shape ns (map Z.to_nat (padding_size_of (block_slices_of indx spec) sh)))
  = spec /\
  (sum (padding_size_of (block_slices_of indx spec) sh) = 0 ->
   map Z.of_nat ns = spec).
Proof.
  intros [Hg|(-> & -> & ->)];
    [|intros _ Hn; destruct ns; [auto|discriminate]].
  revert ns; induction Hg as [|i c s indx spec sh Hi His Hg IH];
    intros ns Hc Hn.
  - destruct ns; [auto|discriminate].
  - rewrite block_slices_cons in *.
    rewrite padding_size_cons. rewrite clipped_shape_cons in Hn.
    destruct ns as [|n ns]; [discriminate|].
    injection Hn as Hn Hns. inversion Hc as [|? ? Hc0 Hc']; subst.
    destruct (IH ns Hc' Hns) as (Hl & Hp & Hz).
    destruct (extent_plus_padding i c s n Hi His Hc0 Hn) as [He He0].
    cbn [stop] in *. repeat split.
    + simpl. now rewrite Hl.
    + cbn [map]. rewrite padded_shape_cons. cbn [map]. now rewrite He, Hp.
    + rewrite sum_cons. intros Hs.
      pose proof (padding_nonneg (block_slices_of indx spec) sh) as Hnn.
      cbn [map]. rewrite He0, Hz by lia. reflexivity.
Qed.

Lemma in_grid_accepted (indx spec sh : list Z) :
  in_grid indx spec sh ->
  negb (list_Z_eqb spec [] && list_Z_eqb indx [0])
  && negb (List.length spec =? List.length indx)%nat = false.
Proof.
  intros [Hg|(-> & -> & ->)]; [|reflexivity].
  assert (H : List.length spec = List.length indx)
    by (induction Hg; simpl; auto).
  rewrite H, Nat.eqb_refl. apply andb_false_r.
Qed.

End BlockShape.
(** X16: the blocks of the grid have the uniform block shape.  When every
    dimension's chunk entries sum to its shape, the coordinate addresses a
    block of the uniform grid (no coordinate is negative and no block
    starts past the end of its dimension), and the read returns an array
    whose extents are those of the requested slices clipped to the logical
    shape, the block the pipeline passes to the encoder has exactly the
    uniform block shape; it holds what was read where that reaches and zero
    everywhere else.  So for shape [[25]] and chunks [[[10,10,5]]] the
    coordinate [2] reads [[20,30)] and the five elements read are followed
    by five zeros. *)
Theorem block_in_grid_has_uniform_shape :
  (forall (zarr_codec_encode : ndarray -> Result Encoded)
          (item_bytes : Z -> list Byte.byte) (request : Request)
          (entry : Entry) (numpy_str : string) (cs : list (list Z)) (sh : list Z)
          (block : string) (zarr_block_indx zarr_block_spec : list Z)
          (value : array_value),
      StructureFamily.mem (structure_family entry)
        [StructureFamily.array; StructureFamily.sparse] = true ->
      structure entry = ArrayStructure (BuiltinDtype numpy_str) cs sh ->
      Forall2 (fun tc s => sum tc = s) cs sh ->
      ResultMonad.comprehension py_int (split "," block) = Ok zarr_block_indx ->
      convert_chunks_for_zarr cs = Ok zarr_block_spec ->
      in_grid zarr_block_indx zarr_block_spec sh ->
      let block_slices := block_slices_of zarr_block_indx zarr_block_spec in
      read entry block_slices = Ok value ->
      well_formed (densify value) ->
      map Z.of_nat (nd_shape (densify value)) = clipped_shape block_slices sh ->
      exists padded,
        run (zarr_block block entry) = ([ReadCall block_slices], Ok padded) /\
        run (get_zarr_array zarr_codec_encode item_bytes request (Some block) entry)
          = encode_block zarr_codec_encode item_bytes padded [ReadCall block_slices] /\
        map Z.of_nat (nd_shape padded) = zarr_block_spec /\
        well_formed padded /\
        forall idx,
          inside (nd_shape padded) idx = true ->
          getitem padded idx
          = if inside (nd_shape (densify value)) idx
            then getitem (densify value) idx else 0) /\
  (forall (entry : Entry) (numpy_str : string) (v1 v2 v3 v4 v5 : Z),
      structure entry = ArrayStructure (BuiltinDtype numpy_str) [[10; 10; 5]] [25] ->
      read entry [mk_slice 20 30]
        = Ok (Dense (mk_ndarray [5%nat] [v1; v2; v3; v4; v5])) ->
      convert_chunks_for_zarr [[10; 10; 5]] = Ok [10] /\
      run (zarr_block "2" entry)
        = ([ReadCall [mk_slice 20 30]],
           Ok (mk_ndarray [10%nat] [v1; v2; v3; v4; v5; 0; 0; 0; 0; 0]))).
Proof.
  split.
  - intros zarr_codec_encode item_bytes request entry numpy_str cs sh block
      zarr_block_indx zarr_block_spec value Hf Hs _ Hp Hc Hg block_slices
      Hr Hwf Hshape.
    pose proof (handler_steps zarr_codec_encode item_bytes request entry
                  numpy_str cs sh Hf Hs block) as Hh.
    pose proof (zarr_block_steps entry numpy_str cs sh Hs block
                  zarr_block_indx Hp zarr_block_spec Hc) as Hz.
    rewrite (in_grid_accepted _ _ _ Hg) in Hz. fold block_slices in Hz.
    rewrite Hr in Hz.
    assert (Hnn : Forall (fun c => 0 <= c) zarr_block_spec).
    { eapply Forall_impl; [|exact (convert_range _ _ Hc)]. simpl; lia. }
    destruct (grid_shapes _ _ _ (nd_shape (densify value)) Hg Hnn Hshape)
      as (Hl & Hpad & Hnopad).
    fold block_slices in Hl, Hpad, Hnopad.
    unfold pad_block in Hz.
    destruct (sum (padding_size_of block_slices sh) >? 0) eqn:Hsum.
    + assert (Hne : padding_size_of block_slices sh <> []).
      { intros E. rewrite E in Hsum. discriminate. }
      rewrite (np_pad_ok _ _ Hl Hne) in Hz.
      eexists. split; [exact Hz|]. split; [now rewrite Hh, Hz|].
      assert (Hl' : List.length (map Z.to_nat (padding_size_of block_slices sh))
                    = List.length (nd_shape (densify value)))
        by now rewrite length_map.
      split; [exact Hpad|]. split.
      * unfold well_formed. simpl. now apply pad_data_length.
      * intros idx Hin. unfold getitem. simpl in *.
        now apply pad_data_get.
    + exists (densify value). split; [exact Hz|]. split; [now rewrite Hh, Hz|].
      split.
      * apply Hnopad. pose proof (padding_nonneg block_slices sh). lia.
      * split; [exact Hwf|]. intros idx Hin. now rewrite Hin.
  - intros entry numpy_str v1 v2 v3 v4 v5 Hs Hr.
    split; [reflexivity|].
    rewrite (zarr_block_steps entry numpy_str [[10; 10; 5]] [25] Hs "2"
               [2] eq_refl [10] eq_refl).
    simpl. change (block_slices_of [2] [10]) with [mk_slice 20 30].
    rewrite Hr. reflexivity.
Qed.

Lemma block_in_grid_has_uniform_shape_witness :
  exists padded,
    run (zarr_block "2" Examples.entry25) = ([ReadCall [mk_slice 20 30]], Ok padded) /\
    run (get_zarr_array Examples.raw_codec Examples.one_byte
           (Examples.request "http://h/a?block=2") (Some "2") Examples.entry25)
      = encode_block Examples.raw_codec Examples.one_byte padded
          [ReadCall [mk_slice 20 30]] /\
    map Z.of_nat (nd_shape padded) = [10] /\
    well_formed padded /\
    forall idx,
      inside (nd_shape padded) idx = true ->
      getitem padded idx
      = if inside [5%nat] idx
        then getitem (mk_ndarray [5%nat] [21; 22; 23; 24; 25]) idx else 0.
Proof.
  apply (proj1 block_in_grid_has_uniform_shape
           Examples.raw_codec Examples.one_byte
           (Examples.request "http://h/a?block=2") Examples.entry25 "<i8"
           [[10; 10; 5]] [25] "2" [2] [10]
           (Dense (mk_ndarray [5%nat] [21; 22; 23; 24; 25]))).
  - reflexivity.
  - reflexivity.
  - repeat constructor.
  - reflexivity.
  - reflexivity.
  - left. repeat constructor; lia.
  - reflexivity.
  - reflexivity.
  - reflexivity.
Defined.

(** C1 (what the pipeline does past the grid): the comment above the
    padding says it is there "to ensure all zarr blocks have same shapes",
    and a coordinate out of range is meant to be answered with bad request
    through the [IndexError] of the read.  Over shape [[25]] with chunks
    [[[10,10,5]]], whose entries sum to the shape and whose uniform block
    shape is [[10]], the coordinate [3] asks for [[30,40)]; a reader that
    returns the requested slice clipped to the logical shape returns the
    empty array and raises nothing; the padding is [max(0, 40 - 25) = 15],
    and the block that is served has 15 elements, not 10. *)
Lemma block_past_grid_is_overpadded :
  Forall2 (fun tc s => sum tc = s) [[10; 10; 5]] [25] /\
  convert_chunks_for_zarr [[10; 10; 5]] = Ok [10] /\
  read Examples.entry25 [mk_slice 30 40] = Ok (Dense (mk_ndarray [0%nat] [])) /\
  map Z.of_nat [0%nat] = clipped_shape [mk_slice 30 40] [25] /\
  run (zarr_block "3" Examples.entry25)
    = ([ReadCall [mk_slice 30 40]], Ok (mk_ndarray [15%nat] (repeat 0 15))) /\
  map Z.of_nat (nd_shape (mk_ndarray [15%nat] (repeat 0 15))) <> [10].
Proof.
  repeat split; try reflexivity.
  - repeat constructor.
  - discriminate.
Qed.

(** ** Dimensions of length zero, dimensions without entries, scalars *)

Section ZeroLength.

Lemma Forall2_nth_error {A B : Type} (P : A -> B -> Prop)
  (l : list A) (l' : list B) (k : nat) (x : A) :
  Forall2 P l l' -> nth_error l k = Some x ->
  exists y, nth_error l' k = Some y /\ P x y.
Proof.
  intros H; revert k; induction H as [|a b l l' Hab _ IH]; intros [|k] Hk;
    simpl in *; try discriminate.
  - injection Hk as <-. eauto.
  - now apply IH.
Qed.

Lemma zero_entries_block_size (tc : list Z) (c : Z) :
  zarr_block_size tc = Ok c -> Forall (fun x => x = 0) tc -> c = 1.
Proof.
  intros Hc Hz. apply zarr_block_size_spec in Hc as (m & [Hm _] & ->).
  rewrite Forall_forall in Hz. rewrite (Hz m Hm). reflexivity.
Qed.

Lemma convert_raises_on_empty_dimension (cs : list (list Z)) :
  In [] cs ->
  convert_chunks_for_zarr cs
  = Raise (PyExc TypeError "'int' object is not iterable").
Proof.
  induction cs as [|tc cs IH]; intros Hin; [destruct Hin|].
  rewrite convert_cons. destruct tc as [|x tc]; [reflexivity|].
  rewrite zarr_block_size_nonempty.
  destruct Hin as [Hin|Hin]; [discriminate|].
  simpl. now rewrite (IH Hin).
Qed.

End ZeroLength.

(** X17: a dimension whose chunk entries are all zero gets block size 1,
    and over shape [[0]] with chunks [[[0]]] the block [0] is one element,
    the zero of the padding; a scalar, which has no dimension, gets the
    empty block shape and the block [0] is its one element, not padded;
    the translation of a chunk spec with a dimension without any entry
    returns no block shape, it raises [TypeError]. *)
Theorem zero_length_dimension_has_block_size_one :
  (forall cs bs k tc,
      convert_chunks_for_zarr cs = Ok bs ->
      nth_error cs k = Some tc ->
      Forall (fun x => x = 0) tc ->
      nth_error bs k = Some 1) /\
  (forall (zarr_codec_encode : ndarray -> Result Encoded)
          (item_bytes : Z -> list Byte.byte) (request : Request)
          (entry : Entry) (numpy_str : string),
      StructureFamily.mem (structure_family entry)
        [StructureFamily.array; StructureFamily.sparse] = true ->
      (structure entry = ArrayStructure (BuiltinDtype numpy_str) [[0]] [0] ->
       read entry [mk_slice 0 1] = Ok (Dense (mk_ndarray [0%nat] [])) ->
       convert_chunks_for_zarr [[0]] = Ok [1] /\
       run (zarr_block "0" entry)
         = ([ReadCall [mk_slice 0 1]], Ok (mk_ndarray [1%nat] [0])) /\
       run (get_zarr_array zarr_codec_encode item_bytes request (Some "0") entry)
         = encode_block zarr_codec_encode item_bytes (mk_ndarray [1%nat] [0])
             [ReadCall [mk_slice 0 1]]) /\
      (forall v,
         structure entry = ArrayStructure (BuiltinDtype numpy_str) [] [] ->
         read entry [] = Ok (Dense (mk_ndarray [] [v])) ->
         convert_chunks_for_zarr [] = Ok [] /\
         run (zarr_block "0" entry) = ([ReadCall []], Ok (mk_ndarray [] [v])))) /\
  (forall cs,
      In [] cs ->
      convert_chunks_for_zarr cs
      = Raise (PyExc TypeError "'int' object is not iterable")).
Proof.
  split; [|split].
  - intros cs bs k tc Hc Hk Hz.
    destruct (Forall2_nth_error _ _ _ k tc (convert_pointwise _ _ Hc) Hk)
      as (c & Hck & Hsize).
    now rewrite Hck, (zero_entries_block_size tc c Hsize Hz).
  - intros zarr_codec_encode item_bytes request entry numpy_str Hf. split.
    + intros Hs Hr.
      assert (Hz : run (zarr_block "0" entry)
                   = ([ReadCall [mk_slice 0 1]], Ok (mk_ndarray [1%nat] [0]))).
      { rewrite (zarr_block_steps entry numpy_str [[0]] [0] Hs "0"
                   [0] eq_refl [1] eq_refl).
        simpl. change (block_slices_of [0] [1]) with [mk_slice 0 1].
        rewrite Hr. reflexivity. }
      split; [reflexivity|]. split; [exact Hz|].
      rewrite (handler_steps zarr_codec_encode item_bytes request entry
                 numpy_str [[0]] [0] Hf Hs "0").
      now rewrite Hz.
    + intros v Hs Hr. split; [reflexivity|].
      rewrite (zarr_block_steps entry numpy_str [] [] Hs "0"
                 [0] eq_refl [] eq_refl).
      simpl. change (block_slices_of [0] []) with (@nil slice).
      rewrite Hr. reflexivity.
  - apply convert_raises_on_empty_dimension.
Qed.

Lemma zero_length_dimension_has_block_size_one_witness :
  nth_error [10; 1] 1 = Some 1 /\
  run (zarr_block "0" Examples.entry_empty)
    = ([ReadCall [mk_slice 0 1]], Ok (mk_ndarray [1%nat] [0])) /\
  run (zarr_block "0" Examples.entry_scalar)
    = ([ReadCall []], Ok (mk_ndarray [] [7])) /\
  convert_chunks_for_zarr [[5]; []]
    = Raise (PyExc TypeError "'int' object is not iterable").
Proof.
  destruct zero_length_dimension_has_block_size_one as (H1 & H2 & H3).
  split; [|split; [|split]].
  - apply (H1 [[10; 10; 5]; [0; 0]] [10; 1] 1%nat [0; 0]);
      [reflexivity|reflexivity|repeat constructor].
  - apply (proj1 (H2 Examples.raw_codec Examples.one_byte
                    (Examples.request "http://h/a?block=0")
                    Examples.entry_empty "<i8" eq_refl));
      reflexivity.
  - apply (proj2 (H2 Examples.raw_codec Examples.one_byte
                    (Examples.request "http://h/a?block=0")
                    Examples.entry_scalar "<i8" eq_refl) 7);
      reflexivity.
  - apply H3. right; now left.
Defined.

(** C3 (what the translation does for a dimension without entries): the
    docstring of the translation says that "Zarr chunks must be at least of
    size 1", and [max( *tc, 1)] is there to give that floor; but for the
    chunk spec [[[]]], one dimension without entries, [max] is left with
    the single argument [1] and raises [TypeError].  The translation
    returns no block size, and the block request [0] raises the same
    error before anything is read, so it is answered with status 500 and
    not with one element of padding. *)
Lemma dimension_without_entries_raises :
  convert_chunks_for_zarr [[]]
    = Raise (PyExc TypeError "'int' object is not iterable") /\
  convert_chunks_for_zarr [[]] <> Ok [1] /\
  run (zarr_block "0" Examples.entry_no_chunks)
    = ([], Raise (PyExc TypeError "'int' object is not iterable")) /\
  http_status
    (snd (run (get_zarr_array Examples.raw_codec Examples.one_byte
                 (Examples.request "http://h/a?block=0") (Some "0")
                 Examples.entry_no_chunks)))
    = HTTP_500_INTERNAL_SERVER_ERROR.
Proof.
  repeat split; try reflexivity. discriminate.
Qed.

(** ** What the handlers call and what they return *)

Section Emits.

Context {A B : Type}.
Variable P : Event -> Prop.

Lemma emits_ret (a : A) : emits P 0 (ret a).
Proof. intros log. exists []. simpl. rewrite app_nil_r. auto. Qed.

Lemma emits_raise (e : exception) : emits P 0 (@raise A e).
Proof. intros log. exists []. simpl. rewrite app_nil_r. auto. Qed.

Lemma emits_lift (r : Result A) : emits P 0 (lift r).
Proof. intros log. exists []. simpl. rewrite app_nil_r. auto. Qed.

Lemma emits_call (ev : Event) (r : Result A) : P ev -> emits P 1 (call ev r).
Proof. intros H log. exists [ev]. simpl. auto. Qed.

Lemma emits_weaken (n n' : nat) (m : M A) :
  emits P n m -> (n <= n')%nat -> emits P n' m.
Proof.
  intros H Hle log. destruct (H log) as (new & H1 & H2 & H3).
  exists new. repeat split; auto. lia.
Qed.

Lemma emits_bind (n n' : nat) (m : M A) (k : A -> M B) :
  emits P n m -> (forall a, emits P n' (k a)) -> emits P (n + n') (bind m k).
Proof.
  intros Hm Hk log. destruct (Hm log) as (new & H1 & H2 & H3).
  unfold bind. destruct (m log) as [log' [a|e]]; simpl in H1; subst log'.
  - destruct (Hk a (log ++ new)%list) as (new' & H1' & H2' & H3').
    exists (new ++ new')%list. rewrite H1', app_assoc, length_app.
    repeat split; [lia|]. apply Forall_app; auto.
  - exists new. simpl. repeat split; auto. lia.
Qed.

Lemma emits_bind_answers (Q : A -> Prop) (n n' : nat) (m : M A) (k : A -> M B) :
  emits P n m -> answers Q m -> (forall a, Q a -> emits P n' (k a)) ->
  emits P (n + n') (bind m k).
Proof.
  intros Hm HQ Hk log. destruct (Hm log) as (new & H1 & H2 & H3).
  unfold bind. destruct (m log) as [log' [a|e]] eqn:Hml; simpl in H1; subst log'.
  - destruct (Hk a (HQ _ _ _ Hml) (log ++ new)%list) as (new' & H1' & H2' & H3').
    exists (new ++ new')%list. rewrite H1', app_assoc, length_app.
    repeat split; [lia|]. apply Forall_app; auto.
  - exists new. simpl. repeat split; auto. lia.
Qed.

End Emits.

Section EmitsHandlers.

Context {A : Type}.
Variable P : Event -> Prop.

Lemma emits_try_except (n n' : nat) (m : M A) (cls : exc_class) (h : M A) :
  emits P n m -> emits P n' h -> emits P (n + n') (try_except m cls h).
Proof.
  intros Hm Hh log. destruct (Hm log) as (new & H1 & H2 & H3).
  unfold try_except. destruct (m log) as [log' [a|e]]; simpl in H1; subst log'.
  - exists new. simpl. repeat split; auto. lia.
  - destruct (is_class cls e).
    + destruct (Hh (log ++ new)%list) as (new' & H1' & H2' & H3').
      exists (new ++ new')%list. rewrite H1', app_assoc, length_app.
      repeat split; [lia|]. apply Forall_app; auto.
    + exists new. simpl. repeat split; auto. lia.
Qed.

Lemma emits_try_except_Exception (n n' : nat) (m : M A) (h : exception -> M A) :
  emits P n m -> (forall e, emits P n' (h e)) ->
  emits P (n + n') (try_except_Exception m h).
Proof.
  intros Hm Hh log. destruct (Hm log) as (new & H1 & H2 & H3).
  unfold try_except_Exception.
  destruct (m log) as [log' [a|e]]; simpl in H1; subst log'.
  - exists new. simpl. repeat split; auto. lia.
  - destruct (Hh e (log ++ new)%list) as (new' & H1' & H2' & H3').
    exists (new ++ new')%list. rewrite H1', app_assoc, length_app.
    repeat split; [lia|]. apply Forall_app; auto.
Qed.

Lemma emits_run (n : nat) (m : M A) :
  emits P n m ->
  (List.length (fst (run m)) <= n)%nat /\ Forall P (fst (run m)).
Proof.
  intros H. destruct (H []) as (new & H1 & H2 & H3).
  unfold run. rewrite H1. simpl. auto.
Qed.

End EmitsHandlers.

Section Answers.

Context {A B : Type}.

Lemma answers_ret (Q : A -> Prop) (a : A) : Q a -> answers Q (ret a).
Proof. intros H log log' a' [= _ <-]. exact H. Qed.

Lemma answers_raise (Q : A -> Prop) (e : exception) : answers Q (@raise A e).
Proof. intros log log' a' [=]. Qed.

Lemma answers_lift (Q : A -> Prop) (r : Result A) :
  (forall a, r = Ok a -> Q a) -> answers Q (lift r).
Proof. intros H log log' a' [= _ ->]. now apply H. Qed.

Lemma answers_bind (Q : B -> Prop) (m : M A) (k : A -> M B) :
  (forall a, answers Q (k a)) -> answers Q (bind m k).
Proof.
  intros Hk log log' b. unfold bind.
  destruct (m log) as [log1 [a|e]]; [apply Hk|discriminate].
Qed.

Lemma answers_try_except (Q : A -> Prop) (m : M A) (cls : exc_class) (h : M A) :
  answers Q m -> answers Q h -> answers Q (try_except m cls h).
Proof.
  intros Hm Hh log log' a. unfold try_except.
  destruct (m log) as [log1 [a1|e]] eqn:Hml.
  - intros [= <- <-]. eapply Hm; eauto.
  - destruct (is_class cls e); [apply Hh|discriminate].
Qed.

Lemma answers_try_except_Exception (Q : A -> Prop) (m : M A)
  (h : exception -> M A) :
  answers Q m -> (forall e, answers Q (h e)) ->
  answers Q (try_except_Exception m h).
Proof.
  intros Hm Hh log log' a. unfold try_except_Exception.
  destruct (m log) as [log1 [a1|e]] eqn:Hml.
  - intros [= <- <-]. eapply Hm; eauto.
  - apply Hh.
Qed.

End Answers.

Create HintDb handlers.
#[local] Hint Resolve emits_ret emits_raise emits_lift : handlers.
#[local] Hint Resolve answers_raise answers_bind : handlers.

Section HandlerInvariants.

Variable zarr_codec_encode : ndarray -> Result Encoded.
Variable item_bytes : Z -> list Byte.byte.
Variable request : Request.
Variable entry : Entry.

Let silent {A : Type} (m : M A) : Prop := emits (fun _ => False) 0 m.

Lemma is_unstructured_array_silent (P : Event -> Prop) :
  emits P 0 (is_unstructured_array entry).
Proof.
  unfold is_unstructured_array.
  destruct (StructureFamily.eqb _ _); auto with handlers.
  apply (emits_bind P 0 0); auto with handlers.
Qed.

Lemma group_metadata_silent : silent (get_zarr_group_metadata request entry).
Proof.
  unfold silent, get_zarr_group_metadata.
  apply (emits_bind _ 0 0); [apply is_unstructured_array_silent|].
  intros [|]; unfold not_found; auto with handlers.
Qed.

Lemma array_metadata_silent : silent (get_zarr_array_metadata request entry).
Proof.
  unfold silent, get_zarr_array_metadata.
  apply (emits_bind _ 0 0); auto with handlers.
  intros [numpy_str|fields]; unfold not_found; auto with handlers.
  apply (emits_try_except_Exception _ 0 0).
  - apply (emits_bind _ 0 0); auto with handlers. intros cs.
    apply (emits_bind _ 0 0); auto with handlers. intros bs.
    apply (emits_bind _ 0 0); auto with handlers.
  - intros e. apply (emits_bind _ 0 0); auto with handlers.
Qed.

Lemma attrs_silent : silent (get_zarr_attrs request entry).
Proof.
  unfold silent, get_zarr_attrs.
  apply (emits_bind _ 0 0); [apply is_unstructured_array_silent|].
  intros [|]; unfold not_found; auto with handlers.
  apply (emits_bind _ 0 0).
  - unfold entry_metadata. destruct (metadata entry).
    + apply (emits_try_except _ 0 0); auto with handlers.
      apply (emits_bind _ 0 0); auto with handlers.
    + apply (emits_try_except _ 0 0); auto with handlers.
  - intros o. apply (emits_bind _ 0 0); auto with handlers.
Qed.

Lemma silent_run {A : Type} (m : M A) : silent m -> fst (run m) = [].
Proof.
  intros H. destruct (emits_run _ _ _ H) as [Hlen _].
  destruct (fst (run m)); [reflexivity|simpl in Hlen; lia].
Qed.

End HandlerInvariants.
Section PipelineInvariants.

Variable zarr_codec_encode : ndarray -> Result Encoded.
Variable item_bytes : Z -> list Byte.byte.
Variable request : Request.
Variable entry : Entry.

Lemma zarr_block_emits (block : string) : emits is_read 1 (zarr_block block entry).
Proof.
  unfold zarr_block.
  apply (emits_bind _ 0 1); auto with handlers. intros indx.
  apply (emits_bind _ 0 1); auto with handlers. intros cs.
  apply (emits_bind _ 0 1); auto with handlers. intros spec.
  destruct (_ && _).
  - apply (emits_weaken _ 0); [|lia].
    apply (emits_bind _ 0 0); auto with handlers.
  - apply (emits_bind _ 1 0).
    + apply (emits_try_except _ 1 0); auto with handlers.
      apply emits_call. now eexists.
    + intros value. apply (emits_bind _ 0 0); auto with handlers.
      intros sh. destruct (_ >? _); auto with handlers.
Qed.

Lemma encode_block_emits (P : Event -> Prop) (a : ndarray) :
  emits P 0 (encode_block zarr_codec_encode item_bytes a).
Proof.
  unfold encode_block. apply (emits_bind _ 0 0); auto with handlers.
Qed.

Lemma emits_impl {A : Type} (P Q : Event -> Prop) (n : nat) (m : M A) :
  (forall ev, P ev -> Q ev) -> emits P n m -> emits Q n m.
Proof.
  intros HPQ H log. destruct (H log) as (new & H1 & H2 & H3).
  exists new. repeat split; auto. eapply Forall_impl; eauto.
Qed.

(** Whether the entry is a structured array: [None] only for an entry
    that is no array or has a builtin data type. *)
Lemma struct_fields_answers :
  answers (fun fields : option (list Field) =>
             fields = None -> builtin_if_array entry)
    (if StructureFamily.eqb (structure_family entry) StructureFamily.array
     then dt <- lift (data_type (structure entry)) ;;
          ret (match dt with
               | StructDtype fields => Some fields
               | BuiltinDtype _ => None
               end)
     else ret None).
Proof.
  intros log log' fields. unfold builtin_if_array.
  destruct (StructureFamily.eqb _ _) eqn:Hf.
  - unfold bind, lift, ret.
    destruct (structure entry) as [dt cs sh| |]; simpl; try discriminate.
    destruct dt as [numpy_str|fs]; intros [= _ <-]; [eauto|discriminate].
  - intros _ _ Harr. rewrite Harr in Hf. discriminate.
Qed.

(** The listing branches and the placeholder make no read; the block
    branch is the only one that does, and it is reached only with a block
    parameter, by an entry of the array or sparse family that is no
    structured array. *)
Lemma get_zarr_array_emits (P : Event -> Prop) (block : option string) :
  (forall offset limit, P (KeysRangeCall offset limit)) ->
  P KeysCall ->
  (forall slices,
     block <> None ->
     StructureFamily.mem (structure_family entry)
       [StructureFamily.array; StructureFamily.sparse] = true ->
     builtin_if_array entry ->
     P (ReadCall slices)) ->
  emits P 1 (get_zarr_array zarr_codec_encode item_bytes request block entry).
Proof.
  intros Hrange Hkeys Hread. unfold get_zarr_array.
  destruct (StructureFamily.eqb _ StructureFamily.container).
  { apply (emits_bind _ 1 0); auto with handlers.
    destruct (keys_range entry); apply emits_call; auto. }
  destruct (StructureFamily.eqb _ StructureFamily.table).
  { apply (emits_bind _ 0 1); auto with handlers.
    intros names. apply (emits_weaken _ 0); auto with handlers. }
  apply (emits_bind_answers P
           (fun fields : option (list Field) =>
              fields = None -> builtin_if_array entry) 0 1).
  { destruct (StructureFamily.eqb _ _); auto with handlers.
    apply (emits_bind _ 0 0); auto with handlers. }
  { apply struct_fields_answers. }
  intros [fields|] Hb; [apply (emits_weaken _ 0); auto with handlers|].
  specialize (Hb eq_refl).
  destruct (StructureFamily.mem _ _) eqn:Hmem;
    [|apply (emits_weaken _ 0); auto with handlers].
  destruct block as [block|]; [|apply (emits_weaken _ 0); auto with handlers].
  apply (emits_bind _ 1 0); [|intros a; apply encode_block_emits].
  apply (emits_impl is_read); [|apply zarr_block_emits].
  intros ev [slices ->]. apply Hread; [discriminate|reflexivity|exact Hb].
Qed.

Lemma listing_ok (u : string) (names : list string) : ok_status (listing u names).
Proof. reflexivity. Qed.

Lemma get_zarr_array_answers (block : option string) :
  answers ok_status
    (get_zarr_array zarr_codec_encode item_bytes request block entry).
Proof.
  unfold get_zarr_array.
  destruct (StructureFamily.eqb _ StructureFamily.container).
  { apply answers_bind. intros names. apply answers_ret, listing_ok. }
  destruct (StructureFamily.eqb _ StructureFamily.table).
  { apply answers_bind. intros names. apply answers_ret, listing_ok. }
  apply answers_bind. intros [fields|]; [apply answers_ret, listing_ok|].
  destruct (StructureFamily.mem _ _); [|now apply answers_ret].
  destruct block as [block|]; [|now apply answers_ret].
  apply answers_bind. intros a. unfold encode_block.
  apply answers_bind. intros buf. now apply answers_ret.
Qed.

Lemma group_metadata_answers :
  answers ok_status (get_zarr_group_metadata request entry).
Proof.
  unfold get_zarr_group_metadata. apply answers_bind.
  intros [|]; [apply answers_raise|now apply answers_ret].
Qed.

Lemma array_metadata_answers :
  answers ok_status (get_zarr_array_metadata request entry).
Proof.
  unfold get_zarr_array_metadata. apply answers_bind.
  intros [numpy_str|fields]; [|apply answers_raise].
  apply answers_try_except_Exception.
  - do 3 (apply answers_bind; intros ?). now apply answers_ret.
  - intros e. apply answers_bind. intros detail. apply answers_raise.
Qed.

Lemma attrs_answers : answers ok_status (get_zarr_attrs request entry).
Proof.
  unfold get_zarr_attrs. apply answers_bind.
  intros [|]; [apply answers_raise|].
  do 2 (apply answers_bind; intros ?). now apply answers_ret.
Qed.

End PipelineInvariants.

(** X1: the three metadata handlers call no collaborator: whatever the
    entry, they neither read data nor enumerate keys. *)
Theorem metadata_requests_call_no_collaborator
  (request : Request) (entry : Entry) :
  fst (run (get_zarr_group_metadata request entry)) = [] /\
  fst (run (get_zarr_array_metadata request entry)) = [] /\
  fst (run (get_zarr_attrs request entry)) = [].
Proof.
  repeat split; apply silent_run.
  - apply group_metadata_silent.
  - apply array_metadata_silent.
  - apply attrs_silent.
Qed.

(** X2: a data request makes at most one call to a storage collaborator
    (a read or an enumeration of keys), and it reads only when a block is
    asked of an entry of the array or the sparse family that is no
    structured array: listings and the placeholder answer never read. *)
Theorem data_request_reads_at_most_once
  (zarr_codec_encode : ndarray -> Result Encoded)
  (item_bytes : Z -> list Byte.byte)
  (request : Request) (block : option string) (entry : Entry) :
  let calls :=
    fst (run (get_zarr_array zarr_codec_encode item_bytes request block entry)) in
  (List.length calls <= 1)%nat /\
  forall slices,
    In (ReadCall slices) calls ->
    block <> None /\
    StructureFamily.mem (structure_family entry)
      [StructureFamily.array; StructureFamily.sparse] = true /\
    (structure_family entry = StructureFamily.array ->
     exists numpy_str cs sh,
       structure entry = ArrayStructure (BuiltinDtype numpy_str) cs sh).
Proof.
  set (P := fun ev : Event =>
              forall slices, ev = ReadCall slices ->
                block <> None /\
                StructureFamily.mem (structure_family entry)
                  [StructureFamily.array; StructureFamily.sparse] = true /\
                builtin_if_array entry).
  assert (H : emits P 1 (get_zarr_array zarr_codec_encode item_bytes
                           request block entry)).
  { apply get_zarr_array_emits; unfold P.
    - intros offset limit slices [=].
    - intros slices [=].
    - intros slices Hb Hm Hs slices' _. auto. }
  destruct (emits_run _ _ _ H) as [Hlen Hall].
  split; [exact Hlen|].
  intros slices Hin. rewrite Forall_forall in Hall.
  exact (Hall _ Hin slices eq_refl).
Qed.

(** X3: a response that a handler returns has status 200; the handlers
    signal every other outcome by raising. *)
Theorem returned_responses_have_status_200
  (zarr_codec_encode : ndarray -> Result Encoded)
  (item_bytes : Z -> list Byte.byte)
  (request : Request) (block : option string) (entry : Entry)
  (calls : list Event) (resp : Response) :
  run (get_zarr_group_metadata request entry) = (calls, Ok resp) \/
  run (get_zarr_array_metadata request entry) = (calls, Ok resp) \/
  run (get_zarr_attrs request entry) = (calls, Ok resp) \/
  run (get_zarr_array zarr_codec_encode item_bytes request block entry)
    = (calls, Ok resp) ->
  status_code resp = 200.
Proof.
  intros [H|[H|[H|H]]].
  - exact (group_metadata_answers request entry _ _ _ H).
  - exact (array_metadata_answers request entry _ _ _ H).
  - exact (attrs_answers request entry _ _ _ H).
  - exact (get_zarr_array_answers zarr_codec_encode item_bytes request entry
             block _ _ _ H).
Qed.

Lemma returned_responses_have_status_200_witness :
  status_code
    (mk_response (Text (json_dumps (JDict [("title", JStr "run")])))
                 200 (Some "application/json")) = 200.
Proof.
  apply (returned_responses_have_status_200
           Examples.raw_codec Examples.one_byte
           (Examples.request "http://h/c/.zattrs") None
           (Examples.container_entry []) []).
  right; right; left. reflexivity.
Defined.

(** ** The array descriptor and the blocks it announces *)

Section Descriptor.

Variable request : Request.
Variable entry : Entry.
Variable numpy_str : string.
Variable cs : list (list Z).
Variable sh : list Z.
Hypothesis Hstructure :
  structure entry = ArrayStructure (BuiltinDtype numpy_str) cs sh.

Lemma zarray_steps :
  run (get_zarr_array_metadata request entry)
  = match convert_chunks_for_zarr cs with
    | Ok zarr_chunks =>
        ([], Ok (mk_response
                   (Text (json_dumps (zarray_document numpy_str zarr_chunks sh)))
                   200 None))
    | Raise e =>
        match err_args0 e with
        | Ok detail =>
            ([], Raise (HTTPException HTTP_500_INTERNAL_SERVER_ERROR detail))
        | Raise e' => ([], Raise e')
        end
    end.
Proof.
  unfold run, get_zarr_array_metadata, bind, lift, try_except_Exception.
  rewrite Hstructure. simpl.
  destruct (convert_chunks_for_zarr cs) as [bs|e]; [reflexivity|].
  simpl. destruct (err_args0 e); reflexivity.
Qed.

End Descriptor.

Section ServedBlock.

Variable zarr_codec_encode : ndarray -> Result Encoded.
Variable item_bytes : Z -> list Byte.byte.
Variable request : Request.
Variable entry : Entry.
Variable numpy_str : string.
Variable cs : list (list Z).
Variable sh : list Z.
Variable block : string.
Variable zarr_block_indx zarr_block_spec : list Z.
Variable value : array_value.

Hypothesis Hstructure :
  structure entry = ArrayStructure (BuiltinDtype numpy_str) cs sh.
Hypothesis Hparse :
  ResultMonad.comprehension py_int (split "," block) = Ok zarr_block_indx.
Hypothesis Hconvert : convert_chunks_for_zarr cs = Ok zarr_block_spec.
Hypothesis Hread :
  read entry (block_slices_of zarr_block_indx zarr_block_spec) = Ok value.

(** A block whose slices all stop inside the logical shape is served as
    it was read. *)
Lemma block_inside_unpadded :
  List.length zarr_block_indx = List.length zarr_block_spec ->
  Forall (fun ss => stop (fst ss) <= snd ss)
         (combine (block_slices_of zarr_block_indx zarr_block_spec) sh) ->
  run (zarr_block block entry)
  = ([ReadCall (block_slices_of zarr_block_indx zarr_block_spec)],
     Ok (densify value)).
Proof.
  intros Hlen Hin.
  rewrite (zarr_block_steps entry numpy_str cs sh Hstructure block
             zarr_block_indx Hparse zarr_block_spec Hconvert).
  rewrite Hlen, Nat.eqb_refl, andb_false_r, Hread.
  unfold pad_block.
  assert (Hsum : sum (padding_size_of
                        (block_slices_of zarr_block_indx zarr_block_spec) sh) = 0).
  { unfold padding_size_of.
    induction Hin as [|ss l Hss _ IH]; [reflexivity|].
    cbn [map]. rewrite sum_cons, IH. lia. }
  now rewrite Hsum.
Qed.

(** The block of a coordinate of the grid, when the reader returns the
    extents of the clipped slices: it has the uniform block shape and as
    many elements as the shape says. *)
Lemma block_of_grid :
  in_grid zarr_block_indx zarr_block_spec sh ->
  well_formed (densify value) ->
  map Z.of_nat (nd_shape (densify value))
    = clipped_shape (block_slices_of zarr_block_indx zarr_block_spec) sh ->
  exists padded,
    run (zarr_block block entry)
      = ([ReadCall (block_slices_of zarr_block_indx zarr_block_spec)], Ok padded) /\
    map Z.of_nat (nd_shape padded) = zarr_block_spec /\
    well_formed padded.
Proof.
  intros Hg Hwf Hshape.
  pose proof (zarr_block_steps entry numpy_str cs sh Hstructure block
                zarr_block_indx Hparse zarr_block_spec Hconvert) as Hz.
  rewrite (in_grid_accepted _ _ _ Hg), Hread in Hz.
  assert (Hnn : Forall (fun c => 0 <= c) zarr_block_spec).
  { eapply Forall_impl; [|exact (convert_range _ _ Hconvert)]. simpl; lia. }
  destruct (grid_shapes _ _ _ (nd_shape (densify value)) Hg Hnn Hshape)
    as (Hl & Hpad & Hnopad).
  unfold pad_block in Hz.
  destruct (sum _ >? 0) eqn:Hsum.
  - assert (Hne : padding_size_of
                    (block_slices_of zarr_block_indx zarr_block_spec) sh <> []).
    { intros E. rewrite E in Hsum. discriminate. }
    rewrite (np_pad_ok _ _ Hl Hne) in Hz.
    eexists. split; [exact Hz|]. split; [exact Hpad|].
    unfold well_formed. simpl. apply pad_data_length; [|exact Hwf].
    now rewrite length_map.
  - exists (densify value). split; [exact Hz|]. split; [|exact Hwf].
    apply Hnopad.
    pose proof (padding_nonneg
                  (block_slices_of zarr_block_indx zarr_block_spec) sh).
    lia.
Qed.

End ServedBlock.

Section Sizes.

Lemma size_product (ns : list nat) :
  Z.of_nat (size ns) = product (map Z.of_nat ns).
Proof.
  induction ns as [|n ns IH]; [reflexivity|].
  simpl. rewrite Nat2Z.inj_mul, IH. reflexivity.
Qed.


End Sizes.
(** X4: the [chunks] the array descriptor announces are the shape of the
    blocks the data handler serves: for a coordinate of the grid and a
    reader that returns the extents of the clipped slices, the block has
    the announced extent in every dimension and holds as many elements as
    the product of the announced chunks. *)
Theorem descriptor_chunks_are_block_shape
  (request : Request) (entry : Entry) (numpy_str : string)
  (cs : list (list Z)) (sh : list Z) (block : string)
  (zarr_block_indx zarr_chunks : list Z) (value : array_value) :
  structure entry = ArrayStructure (BuiltinDtype numpy_str) cs sh ->
  convert_chunks_for_zarr cs = Ok zarr_chunks ->
  ResultMonad.comprehension py_int (split "," block) = Ok zarr_block_indx ->
  in_grid zarr_block_indx zarr_chunks sh ->
  read entry (block_slices_of zarr_block_indx zarr_chunks) = Ok value ->
  well_formed (densify value) ->
  map Z.of_nat (nd_shape (densify value))
    = clipped_shape (block_slices_of zarr_block_indx zarr_chunks) sh ->
  run (get_zarr_array_metadata request entry)
    = ([], Ok (mk_response
                 (Text (json_dumps (zarray_document numpy_str zarr_chunks sh)))
                 200 None)) /\
  exists padded,
    run (zarr_block block entry)
      = ([ReadCall (block_slices_of zarr_block_indx zarr_chunks)], Ok padded) /\
    map Z.of_nat (nd_shape padded) = zarr_chunks /\
    Z.of_nat (List.length (nd_data padded)) = product zarr_chunks.
Proof.
  intros Hs Hc Hp Hg Hr Hwf Hshape. split.
  - rewrite (zarray_steps request entry numpy_str cs sh Hs), Hc. reflexivity.
  - destruct (block_of_grid entry numpy_str cs sh block zarr_block_indx
                zarr_chunks value Hs Hp Hc Hr Hg Hwf Hshape)
      as (padded & Hrun & Hpshape & Hpwf).
    exists padded. repeat split; auto.
    rewrite Hpwf, size_product, Hpshape. reflexivity.
Qed.

Lemma descriptor_chunks_are_block_shape_witness :
  run (get_zarr_array_metadata (Examples.request "http://h/a/.zarray")
         Examples.entry25)
    = ([], Ok (mk_response
                 (Text (json_dumps (zarray_document "<i8" [10] [25])))
                 200 None)) /\
  exists padded,
    run (zarr_block "2" Examples.entry25)
      = ([ReadCall (block_slices_of [2] [10])], Ok padded) /\
    map Z.of_nat (nd_shape padded) = [10] /\
    Z.of_nat (List.length (nd_data padded)) = product [10].
Proof.
  apply (descriptor_chunks_are_block_shape
           (Examples.request "http://h/a/.zarray") Examples.entry25 "<i8"
           [[10; 10; 5]] [25] "2" [2] [10]
           (Dense (mk_ndarray [5%nat] [21; 22; 23; 24; 25])));
    try reflexivity.
  left. repeat constructor; lia.
Defined.

(** X5: when a dimension of the chunk spec has no entry, the descriptor
    request does not let the [TypeError] of the translation out: it raises
    the [HTTPException] of status 500 whose detail is the message of the
    error. *)
Theorem descriptor_failure_is_status_500
  (request : Request) (entry : Entry) (numpy_str : string)
  (cs : list (list Z)) (sh : list Z) :
  structure entry = ArrayStructure (BuiltinDtype numpy_str) cs sh ->
  In [] cs ->
  run (get_zarr_array_metadata request entry)
    = ([], Raise (HTTPException HTTP_500_INTERNAL_SERVER_ERROR
                    "'int' object is not iterable")).
Proof.
  intros Hs Hin.
  rewrite (zarray_steps request entry numpy_str cs sh Hs).
  now rewrite (convert_raises_on_empty_dimension cs Hin).
Qed.

Lemma descriptor_failure_is_status_500_witness :
  run (get_zarr_array_metadata (Examples.request "http://h/a/.zarray")
         Examples.entry_no_chunks)
    = ([], Raise (HTTPException HTTP_500_INTERNAL_SERVER_ERROR
                    "'int' object is not iterable")).
Proof.
  apply (descriptor_failure_is_status_500
           (Examples.request "http://h/a/.zarray") Examples.entry_no_chunks
           "<i8" [[]] [0]).
  - reflexivity.
  - now left.
Defined.

(** X6: a block all of whose slices stop inside the logical shape is not
    padded: whatever the reader returned (made dense if it was sparse) is
    what goes to the encoder, whatever its shape. *)
Theorem inner_block_is_served_as_read
  (zarr_codec_encode : ndarray -> Result Encoded)
  (item_bytes : Z -> list Byte.byte)
  (request : Request) (entry : Entry) (numpy_str : string)
  (cs : list (list Z)) (sh : list Z) (block : string)
  (zarr_block_indx zarr_block_spec : list Z) (value : array_value) :
  StructureFamily.mem (structure_family entry)
    [StructureFamily.array; StructureFamily.sparse] = true ->
  structure entry = ArrayStructure (BuiltinDtype numpy_str) cs sh ->
  ResultMonad.comprehension py_int (split "," block) = Ok zarr_block_indx ->
  convert_chunks_for_zarr cs = Ok zarr_block_spec ->
  List.length zarr_block_indx = List.length zarr_block_spec ->
  Forall (fun ics => (fst (fst ics) + 1) * snd (fst ics) <= snd ics)
         (combine (combine zarr_block_indx zarr_block_spec) sh) ->
  read entry (block_slices_of zarr_block_indx zarr_block_spec) = Ok value ->
  run (zarr_block block entry)
    = ([ReadCall (block_slices_of zarr_block_indx zarr_block_spec)],
       Ok (densify value)) /\
  run (get_zarr_array zarr_codec_encode item_bytes request (Some block) entry)
    = encode_block zarr_codec_encode item_bytes (densify value)
        [ReadCall (block_slices_of zarr_block_indx zarr_block_spec)].
Proof.
  intros Hf Hs Hp Hc Hlen Hin Hr.
  assert (Hin' : Forall (fun ss => stop (fst ss) <= snd ss)
                   (combine (block_slices_of zarr_block_indx zarr_block_spec) sh)).
  { unfold block_slices_of. clear - Hin.
    revert sh Hin.
    induction (combine zarr_block_indx zarr_block_spec) as [|ic l IH];
      intros [|s sh] Hin; simpl; constructor.
    - inversion Hin; subst. simpl in *. assumption.
    - apply IH. now inversion Hin. }
  pose proof (block_inside_unpadded entry numpy_str cs sh block zarr_block_indx
                zarr_block_spec value Hs Hp Hc Hr Hlen Hin') as Hz.
  split; [exact Hz|].
  rewrite (handler_steps zarr_codec_encode item_bytes request entry
             numpy_str cs sh Hf Hs block).
  now rewrite Hz.
Qed.

Lemma inner_block_is_served_as_read_witness :
  run (zarr_block "1" Examples.entry25)
    = ([ReadCall (block_slices_of [1] [10])],
       Ok (mk_ndarray [10%nat] [11; 12; 13; 14; 15; 16; 17; 18; 19; 20])).
Proof.
  refine (proj1 (inner_block_is_served_as_read
                   Examples.raw_codec Examples.one_byte
                   (Examples.request "http://h/a?block=1") Examples.entry25
                   "<i8" [[10; 10; 5]] [25] "1" [1] [10]
                   (Dense (mk_ndarray [10%nat]
                                      [11; 12; 13; 14; 15; 16; 17; 18; 19; 20]))
                   eq_refl eq_refl eq_refl eq_refl eq_refl _ eq_refl)).
  repeat constructor. simpl. lia.
Defined.



(** ** The grid of blocks *)

Section Tiling.



End Tiling.



(** ** URLs *)

Section UrlNormalForm.

Lemma split_without_sep (sep : ascii) (s : string) :
  contains sep s = false -> split sep s = [s].
Proof.
  induction s as [|c s IH]; simpl; [reflexivity|].
  intros H. apply orb_false_iff in H as [Hc Hs].
  rewrite Hc, (IH Hs). reflexivity.
Qed.

Lemma split_head_before_sep (sep : ascii) (s q : string) :
  contains sep s = false ->
  hd EmptyString (split sep (s ++ String sep q)) = s.
Proof.
  induction s as [|c s IH]; simpl.
  - now rewrite Ascii.eqb_refl.
  - intros H. apply orb_false_iff in H as [Hc Hs]. rewrite Hc.
    specialize (IH Hs).
    pose proof (split_nonempty sep (s ++ String sep q)) as Hne.
    destruct (split sep (s ++ String sep q)); [congruence|].
    simpl in *. now rewrite IH.
Qed.

Lemma rstrip_unchanged (c : ascii) (s : string) :
  last_char s <> Some c -> rstrip c s = s.
Proof.
  induction s as [|a s IH]; simpl; [reflexivity|].
  destruct s as [|b s].
  - simpl. intros H. destruct (Ascii.eqb_spec a c); [congruence|reflexivity].
  - intros H. rewrite (IH H). reflexivity.
Qed.

Lemma rstrip_app_char (c : ascii) (s : string) :
  rstrip c (s ++ String c EmptyString) = rstrip c s.
Proof.
  induction s as [|a s IH]; simpl.
  - now rewrite Ascii.eqb_refl.
  - now rewrite IH.
Qed.

Lemma contains_app (c : ascii) (a b : string) :
  contains c (a ++ b) = contains c a || contains c b.
Proof.
  induction a as [|x a IH]; simpl; [reflexivity|].
  now rewrite IH, orb_assoc.
Qed.

Lemma last_char_app (a b : string) :
  b <> EmptyString -> last_char (a ++ b) = last_char b.
Proof.
  intros Hb. induction a as [|x a IH]; simpl; [reflexivity|].
  destruct (a ++ b) eqn:E; [|exact IH].
  destruct a; simpl in E; [congruence|discriminate].
Qed.

Lemma app_inv_head_string (u a b : string) : u ++ a = u ++ b -> a = b.
Proof. induction u as [|x u IH]; simpl; [auto|]. intros [= H]. auto. Qed.

Lemma base_url_of_clean (u : string) :
  contains "?" u = false -> last_char u <> Some "/"%char ->
  base_url (mk_request u) = u.
Proof.
  intros Hq Hs. unfold base_url. simpl.
  rewrite (split_without_sep "?" u Hq). simpl. now apply rstrip_unchanged.
Qed.

Lemma child_urls_injective (u : string) (names : list string) :
  NoDup names -> NoDup (child_urls u names).
Proof.
  unfold child_urls. induction 1 as [|name names Hnot _ IH]; simpl;
    constructor; [|exact IH].
  intros Hin. apply in_map_iff in Hin as (name' & Heq & Hin').
  apply app_inv_head_string in Heq. injection Heq as ->. auto.
Qed.

End UrlNormalForm.

(** X9: the base URL is a normal form: taking the base of a base changes
    nothing, and neither does a query string or a slash put after it. *)
Theorem base_url_is_normal_form (request : Request) (query : string) :
  base_url (mk_request (base_url request)) = base_url request /\
  base_url (mk_request (base_url request ++ String "?" query)) = base_url request /\
  base_url (mk_request (base_url request ++ "/")) = base_url request.
Proof.
  destruct (base_url_spec request) as (_ & _ & _ & _ & _ & Hq & Hs).
  repeat split.
  - now apply base_url_of_clean.
  - unfold base_url at 1. simpl.
    rewrite (split_head_before_sep "?" _ query Hq).
    now apply rstrip_unchanged.
  - unfold base_url at 1. simpl.
    rewrite split_without_sep.
    + simpl. rewrite rstrip_app_char. now apply rstrip_unchanged.
    + rewrite contains_app, Hq. reflexivity.
Qed.

(** X10: the URL a listing gives for a child is the base URL of the
    request for that child, when the name of the child has a character,
    holds no question mark and does not end with a slash; so the children
    of the child are listed under that very URL. *)
Theorem child_url_is_its_own_base (request : Request) (name : string) :
  name <> EmptyString ->
  contains "?" name = false ->
  last_char name <> Some "/"%char ->
  base_url (mk_request (base_url request ++ "/" ++ name))
  = base_url request ++ "/" ++ name.
Proof.
  intros Hne Hq Hs.
  destruct (base_url_spec request) as (_ & _ & _ & _ & _ & Hbq & _).
  apply base_url_of_clean.
  - rewrite !contains_app, Hbq, Hq. reflexivity.
  - rewrite last_char_app; [rewrite last_char_app; auto|].
    destruct name; [congruence|discriminate].
Qed.

Lemma child_url_is_its_own_base_witness :
  base_url (mk_request (base_url (Examples.request "http://h/api/foo/?limit=2")
                        ++ "/" ++ "a"))
  = base_url (Examples.request "http://h/api/foo/?limit=2") ++ "/" ++ "a".
Proof.
  apply (child_url_is_its_own_base
           (Examples.request "http://h/api/foo/?limit=2") "a").
  - discriminate.
  - reflexivity.
  - discriminate.
Defined.

(** X11: names that differ are listed under URLs that differ: a listing of
    names without repetition has no URL twice. *)
Theorem listing_urls_are_distinct
  (zarr_codec_encode : ndarray -> Result Encoded)
  (item_bytes : Z -> list Byte.byte)
  (request : Request) (block : option string)
  (entry : Entry) (names : list string) (calls : list Event) :
  lists entry names calls ->
  NoDup names ->
  exists urls,
    run (get_zarr_array zarr_codec_encode item_bytes request block entry)
      = (calls, Ok (mk_response (Text (json_dumps (JList (map JStr urls))))
                                200 (Some "application/json"))) /\
    List.length urls = List.length names /\
    NoDup urls.
Proof.
  intros Hl Hnd. exists (child_urls (base_url request) names). repeat split.
  - rewrite (lists_runs zarr_codec_encode item_bytes request block _ _ _ Hl).
    now rewrite listing_body.
  - apply length_map.
  - now apply child_urls_injective.
Qed.

Lemma listing_urls_are_distinct_witness :
  exists urls,
    run (get_zarr_array Examples.raw_codec Examples.one_byte
           (Examples.request "http://h/t") None
           (Examples.table_entry ["x"; "y"]))
      = ([], Ok (mk_response (Text (json_dumps (JList (map JStr urls))))
                             200 (Some "application/json"))) /\
    List.length urls = List.length ["x"; "y"] /\
    NoDup urls.
Proof.
  apply (listing_urls_are_distinct Examples.raw_codec Examples.one_byte
           (Examples.request "http://h/t") None
           (Examples.table_entry ["x"; "y"]) ["x"; "y"] []).
  - apply lists_columns; reflexivity.
  - repeat constructor; simpl; intuition discriminate.
Defined.

(** ** The block parameter: printing and parsing coordinates *)

Section Decimal.

Lemma scan_string_of_uint (d : Decimal.uint) (acc : Z) :
  scan_digits (NilEmpty.string_of_uint d) false acc
  = Some (uint_value d acc, EmptyString).
Proof.
  revert acc; induction d; intros acc; simpl; auto;
    rewrite IHd; reflexivity.
Qed.

Lemma uint_value_pos (d : Decimal.uint) (acc : positive) :
  uint_value d (Z.pos acc) = Z.pos (Pos.of_uint_acc d acc).
Proof.
  revert acc; induction d; intros acc; cbn [uint_value Pos.of_uint_acc];
    auto; rewrite <- IHd; f_equal; lia.
Qed.

Lemma uint_value_zero (d : Decimal.uint) :
  uint_value d 0 = Z.of_N (Pos.of_uint d).
Proof.
  induction d; simpl; auto; apply (uint_value_pos d).
Qed.

Lemma uint_value_to_uint (p : positive) :
  uint_value (Pos.to_uint p) 0 = Z.pos p.
Proof. now rewrite uint_value_zero, Unsigned.of_to. Qed.

Lemma string_of_uint_ascii (d : Decimal.uint) :
  is_ascii_str (NilEmpty.string_of_uint d) = true.
Proof. induction d; simpl; auto. Qed.

Lemma string_of_uint_no_comma (d : Decimal.uint) :
  contains "," (NilEmpty.string_of_uint d) = false.
Proof. induction d; simpl; auto. Qed.

(** [int] reads a run of digits, with or without a minus sign before it,
    as the number it denotes. *)
Lemma py_int_digits (d : Decimal.uint) :
  d <> Decimal.Nil ->
  py_int (NilEmpty.string_of_uint d) = Ok (uint_value d 0) /\
  py_int (String "-" (NilEmpty.string_of_uint d)) = Ok (- uint_value d 0).
Proof.
  intros Hd. unfold py_int, transform_decimal_and_space.
  change (is_ascii_str (String "-" (NilEmpty.string_of_uint d)))
    with (is_ascii_str (NilEmpty.string_of_uint d)).
  rewrite string_of_uint_ascii.
  pose proof (scan_string_of_uint d 0) as Hscan.
  destruct d; try congruence; simpl in *; rewrite Hscan; simpl;
    split; f_equal; destruct (uint_value d _); reflexivity.
Qed.

Lemma string_of_uint_nonnil (d : Decimal.uint) :
  d <> Decimal.Nil -> NilZero.string_of_uint d = NilEmpty.string_of_uint d.
Proof. destruct d; [congruence|reflexivity..]. Qed.

Lemma py_int_Z_to_string (z : Z) : py_int (Z_to_string z) = Ok z.
Proof.
  unfold Z_to_string. destruct z as [|p|p]; [reflexivity| |]; simpl;
    pose proof (Unsigned.to_uint_nonnil p) as Hne;
    rewrite (string_of_uint_nonnil _ Hne).
  - now rewrite (proj1 (py_int_digits _ Hne)), uint_value_to_uint.
  - now rewrite (proj2 (py_int_digits _ Hne)), uint_value_to_uint.
Qed.

Lemma Z_to_string_no_comma (z : Z) : contains "," (Z_to_string z) = false.
Proof.
  unfold Z_to_string. destruct z as [|p|p]; [reflexivity| |]; simpl;
    rewrite (string_of_uint_nonnil _ (Unsigned.to_uint_nonnil p));
    apply string_of_uint_no_comma.
Qed.

Lemma split_app_sep (sep : ascii) (s rest : string) :
  contains sep s = false ->
  split sep (s ++ String sep rest) = s :: split sep rest.
Proof.
  induction s as [|c s IH]; simpl.
  - now rewrite Ascii.eqb_refl.
  - intros H. apply orb_false_iff in H as [Hc Hs].
    now rewrite Hc, (IH Hs).
Qed.

Lemma split_join (sep : ascii) (l : list string) :
  l <> [] ->
  Forall (fun s => contains sep s = false) l ->
  split sep (join (String sep EmptyString) l) = l.
Proof.
  intros Hne Hall. induction Hall as [|s l Hs Hall IH]; [congruence|].
  destruct l as [|s' l].
  - simpl. now apply split_without_sep.
  - change (join (String sep EmptyString) (s :: s' :: l))
      with (s ++ String sep (join (String sep EmptyString) (s' :: l))).
    rewrite (split_app_sep sep s _ Hs). f_equal. apply IH. discriminate.
Qed.

Lemma comprehension_py_int (l : list Z) :
  ResultMonad.comprehension py_int (map Z_to_string l) = Ok l.
Proof.
  induction l as [|z l IH]; simpl; [reflexivity|].
  now rewrite py_int_Z_to_string, IH.
Qed.

End Decimal.

(** X12: a coordinate written the way a client writes it, the integers in
    decimal separated by commas, is parsed back to the same integers, the
    negative ones included, when every integer has at most 640 digits, a
    length that every configuration of the interpreter's limit on the
    digits of a literal lets through. *)
Theorem block_parameter_round_trip (zarr_block_indx : list Z) :
  zarr_block_indx <> [] ->
  Forall (fun z => Z.abs z < 10 ^ 640) zarr_block_indx ->
  ResultMonad.comprehension py_int
    (split "," (join "," (map Z_to_string zarr_block_indx)))
  = Ok zarr_block_indx.
Proof.
  intros Hne _. rewrite split_join.
  - apply comprehension_py_int.
  - destruct zarr_block_indx; [congruence|discriminate].
  - apply Forall_map, Forall_forall. intros z _. apply Z_to_string_no_comma.
Qed.

Lemma block_parameter_round_trip_witness :
  ResultMonad.comprehension py_int
    (split "," (join "," (map Z_to_string [12; 0; -3])))
  = Ok [12; 0; -3].
Proof.
  apply (block_parameter_round_trip [12; 0; -3]).
  - discriminate.
  - repeat constructor; vm_compute; reflexivity.
Defined.

(** ** Paths that consult neither the structure nor the storage *)

(** X13: a [TypeError] raised inside [entry.metadata()] is taken for the
    sign that [metadata] is a property: the method object itself is then
    serialised, which fails, so the original error is replaced by the
    [TypeError] of [json.dumps]; any other exception of the method leaves
    the handler as it is. *)
Theorem attrs_type_error_is_masked
  (request : Request) (entry : Entry) (e : exception) :
  structure_family entry <> StructureFamily.array ->
  metadata entry = MetadataMethod (Raise e) ->
  run (get_zarr_attrs request entry)
  = ([], Raise (if is_class TypeError e
                then PyExc TypeError "Object of type method is not JSON serializable"
                else e)).
Proof.
  intros Hf Hm. unfold run, get_zarr_attrs, bind.
  rewrite (unstructured_other_family entry Hf).
  unfold entry_metadata, try_except, bind, lift, ret. rewrite Hm.
  destruct (is_class TypeError e); reflexivity.
Qed.

Lemma attrs_type_error_is_masked_witness :
  run (get_zarr_attrs (Examples.request "http://h/c/.zattrs")
         (mk_entry StructureFamily.container ContainerStructure
            (MetadataMethod (Raise (PyExc TypeError "unhashable type: 'list'")))
            None (Ok []) (fun _ => Ok (Dense (mk_ndarray [] [0])))))
  = ([], Raise (PyExc TypeError "Object of type method is not JSON serializable")).
Proof.
  apply (attrs_type_error_is_masked
           (Examples.request "http://h/c/.zattrs")
           (mk_entry StructureFamily.container ContainerStructure
              (MetadataMethod (Raise (PyExc TypeError "unhashable type: 'list'")))
              None (Ok []) (fun _ => Ok (Dense (mk_ndarray [] [0]))))
           (PyExc TypeError "unhashable type: 'list'")).
  - discriminate.
  - reflexivity.
Defined.

(** X14: for an entry of any family but the array family the group marker
    is returned without a look at the structure description: whatever
    [entry.structure()] is, the answer is [{"zarr_format": 2}]. *)
Theorem group_marker_for_other_families (request : Request) (entry : Entry) :
  structure_family entry <> StructureFamily.array ->
  run (get_zarr_group_metadata request entry)
  = ([], Ok (mk_response (Text group_marker) 200 None)).
Proof.
  intros Hf. unfold run, get_zarr_group_metadata, bind.
  now rewrite (unstructured_other_family entry Hf).
Qed.

Lemma group_marker_for_other_families_witness :
  run (get_zarr_group_metadata (Examples.request "http://h/t/.zgroup")
         (Examples.table_entry ["a"]))
  = ([], Ok (mk_response (Text group_marker) 200 None)).
Proof.
  apply (group_marker_for_other_families
           (Examples.request "http://h/t/.zgroup") (Examples.table_entry ["a"])).
  discriminate.
Defined.

(** X15: a data request without a block against an entry of the sparse
    family, or of the array family with a builtin data type, is answered
    with the empty JSON object; nothing is read and the chunk spec is not
    translated, so even a chunk spec the translation refuses gets this
    answer. *)
Theorem array_without_block_gets_placeholder
  (zarr_codec_encode : ndarray -> Result Encoded)
  (item_bytes : Z -> list Byte.byte)
  (request : Request) (entry : Entry) :
  structure_family entry = StructureFamily.sparse \/
  (structure_family entry = StructureFamily.array /\
   exists numpy_str cs sh,
     structure entry = ArrayStructure (BuiltinDtype numpy_str) cs sh) ->
  run (get_zarr_array zarr_codec_encode item_bytes request None entry)
  = ([], Ok (mk_response (Text "{}") 200 None)).
Proof.
  intros [Hf|(Hf & numpy_str & cs & sh & Hs)];
    unfold run, get_zarr_array, bind, lift, ret; rewrite Hf; simpl.
  - reflexivity.
  - now rewrite Hs.
Qed.

Lemma array_without_block_gets_placeholder_witness :
  run (get_zarr_array Examples.raw_codec Examples.one_byte
         (Examples.request "http://h/a") None Examples.entry_no_chunks)
  = ([], Ok (mk_response (Text "{}") 200 None)).
Proof.
  apply (array_without_block_gets_placeholder
           Examples.raw_codec Examples.one_byte
           (Examples.request "http://h/a") Examples.entry_no_chunks).
  right. split; [reflexivity|]. exists "<i8", [[]], [0]. reflexivity.
Defined.

